(** * Azure AI Search / OpenAI lab: a shallow embedding of the Python samples

    The development follows the layout of the repository:

    - [PyStr]: the fragment of Python's [str] the samples use
      ([strip], [split], [lower], [in], slicing, [replace]);
    - [pyval], [exn], [res]: Python values found in JSON documents, exceptions
      and the outcome of a call;
    - [M]: a state-and-exception monad over a [World] that records every
      external interaction (embedding provider, search index, stdout, files);
    - one definition per source function, under the source's name;
    - the vocabulary of the properties and the concrete inputs of the
      examples;
    - the properties of the specification, one theorem each, with the
      lemmas they rest on.

    Strings are sequences of code points below 256 (Rocq's [ascii]); the
    character classes of [PyStr] are Python's on that range. *)

From Stdlib Require Import String Ascii List ZArith Lia Bool PrimFloat SpecFloat FloatOps.
From stdpp Require Import base option list gmap strings pretty.
Import ListNotations.

Local Open Scope string_scope.
Local Open Scope list_scope.

(* ===================================================================== *)
(** ** Python strings *)
(* ===================================================================== *)

Module PyStr.

(** [str.isspace] on one character: TAB, LF, VT, FF, CR, FS, GS, RS, US,
    SPACE, NEL and NBSP. *)
Definition is_space (c : ascii) : bool :=
  existsb (Nat.eqb (nat_of_ascii c)) [9; 10; 11; 12; 13; 28; 29; 30; 31; 32; 133; 160]%nat.

(** [s.lstrip()] *)
Fixpoint lstrip (s : string) : string :=
  match s with
  | EmptyString => EmptyString
  | String c rest => if is_space c then lstrip rest else s
  end.

Fixpoint rev_onto (s acc : string) : string :=
  match s with
  | EmptyString => acc
  | String c rest => rev_onto rest (String c acc)
  end.

Definition rev (s : string) : string := rev_onto s EmptyString.

(** [s.rstrip()] and [s.strip()] *)
Definition rstrip (s : string) : string := rev (lstrip (rev s)).
Definition strip (s : string) : string := rstrip (lstrip s).

(** [s.split()]: the maximal runs of non-blank characters; [cur] is the
    token being read, reversed. *)
Fixpoint split_from (cur : string) (s : string) : list string :=
  match s with
  | EmptyString =>
      match cur with EmptyString => [] | _ => [rev cur] end
  | String c rest =>
      if is_space c then
        match cur with
        | EmptyString => split_from EmptyString rest
        | _ => rev cur :: split_from EmptyString rest
        end
      else split_from (String c cur) rest
  end.

Definition split (s : string) : list string := split_from EmptyString s.

(** [c.lower()] on the Latin-1 range: A-Z and the accented capitals
    U+00C0..U+00DE except the multiplication sign. *)
Definition lower_char (c : ascii) : ascii :=
  let n := nat_of_ascii c in
  if ((65 <=? n) && (n <=? 90) || (192 <=? n) && (n <=? 222) && negb (n =? 215))%nat
  then ascii_of_nat (n + 32)
  else c.

Fixpoint lower (s : string) : string :=
  match s with
  | EmptyString => EmptyString
  | String c rest => String (lower_char c) (lower rest)
  end.

(** [needle in hay] *)
Fixpoint contains (needle hay : string) : bool :=
  String.prefix needle hay
  || match hay with
     | EmptyString => false
     | String _ rest => contains needle rest
     end.

(** [s[:n]] for [n >= 0] *)
Fixpoint slice_to (n : nat) (s : string) : string :=
  match n, s with
  | S k, String c rest => String c (slice_to k rest)
  | _, _ => EmptyString
  end.

(** [s[n:]] for [n >= 0] *)
Fixpoint slice_from (n : nat) (s : string) : string :=
  match n, s with
  | S k, String _ rest => slice_from k rest
  | _, _ => s
  end.

(** [s.replace(old, new)] for a non-empty [old]: every non-overlapping
    occurrence, scanning from the left.  [fuel] bounds the scan and
    [String.length s] is always enough. *)
Fixpoint replace_fuel (fuel : nat) (old new s : string) : string :=
  match fuel with
  | O => s
  | S k =>
      match s with
      | EmptyString => EmptyString
      | String c rest =>
          if String.prefix old s
          then new +:+ replace_fuel k old new (slice_from (String.length old) s)
          else String c (replace_fuel k old new rest)
      end
  end.

Definition replace (old new s : string) : string :=
  replace_fuel (String.length s) old new s.

(** A string made of blank characters only (the empty string included). *)
Fixpoint all_space (s : string) : bool :=
  match s with
  | EmptyString => true
  | String c rest => is_space c && all_space rest
  end.

End PyStr.

(* ===================================================================== *)
(** ** Python values, exceptions, outcomes *)
(* ===================================================================== *)

(** The values a JSON document or a search row holds.  Arrays are arrays of
    numbers (the embedding vectors); [PyNone] is JSON [null]. *)
Inductive pyval : Type :=
| PyNone
| PyBool (b : bool)
| PyInt (z : Z)
| PyFloat (f : float)
| PyStr (s : string)
| PyList (l : list float).

(** [bool(v)] *)
Definition truthy (v : pyval) : bool :=
  match v with
  | PyNone => false
  | PyBool b => b
  | PyInt z => negb (z =? 0)%Z
  | PyFloat f => negb (PrimFloat.eqb f 0%float)
  | PyStr s => negb (String.eqb s "")
  | PyList l => match l with [] => false | _ => true end
  end.

Definition type_name (v : pyval) : string :=
  match v with
  | PyNone => "NoneType"
  | PyBool _ => "bool"
  | PyInt _ => "int"
  | PyFloat _ => "float"
  | PyStr _ => "str"
  | PyList _ => "list"
  end.

(** The double quote, which no literal of this file holds. *)
Definition DQ : string := String (ascii_of_nat 34) EmptyString.

(** The text of the [TypeError] that adding a [str] to a list raises. *)
Definition list_plus_str : string :=
  "can only concatenate list (not " +:+ DQ +:+ "str" +:+ DQ +:+ ") to list".

(** An exception: its class and [str(e)]. *)
Record exn : Type := Exn { exn_class : string; exn_str : string }.

(** The outcome of a call: a value, or an exception in flight. *)
Inductive res (A : Type) : Type :=
| Ok (a : A)
| Raise (e : exn).
Arguments Ok {A} a.
Arguments Raise {A} e.

(** A [dict] with string keys, as [json.load] and the SDKs produce them. *)
Abbreviation pydict := (gmap string pyval).

(** [d.get(k)] and [d.get(k, default)] *)
Definition dict_get (d : pydict) (k : string) : pyval := default PyNone (d !! k).
Definition dict_get_default (d : pydict) (k : string) (dflt : pyval) : pyval :=
  default dflt (d !! k).

(* ===================================================================== *)
(** ** PromptFlows/extract_search_query.py *)
(* ===================================================================== *)

(** [message.get("role") == "user"] *)
Definition role_is_user (message : pydict) : bool :=
  match dict_get message "role" with
  | PyStr r => String.eqb r "user"
  | _ => false
  end.

(** The [for message in reversed(chat_history)] loop with its [break]:
    [msgs] is the history already reversed. *)
Fixpoint find_last_user (msgs : list pydict) (last_user_message : pyval) : pyval :=
  match msgs with
  | [] => last_user_message
  | message :: rest =>
      if role_is_user message then dict_get message "content"
      else find_last_user rest last_user_message
  end.

(** The condition of the [if] that guards the look-back. *)
Definition needs_context (user_query : string) : bool :=
  (length (PyStr.split user_query) <? 5)%nat
  || PyStr.contains "more" (PyStr.lower user_query)
  || PyStr.contains "elaborat" (PyStr.lower user_query).

(** [last_user_message + " " + user_query]; [str + str] is the only
    addition with a [str] on the right that Python accepts. *)
Definition concat_query (last_user_message : pyval) (user_query : string) : res string :=
  match last_user_message with
  | PyStr s => Ok (s +:+ " " +:+ user_query)
  | PyList _ => Raise (Exn "TypeError" list_plus_str)
  | v => Raise (Exn "TypeError"
                  ("unsupported operand type(s) for +: '" +:+ type_name v +:+ "' and 'str'"))
  end.

Definition extract_search_query (user_query : string) (chat_history : list pydict) : res string :=
  match chat_history with
  | [] => Ok user_query
  | _ =>
      if needs_context user_query then
        let last_user_message := find_last_user (rev chat_history) PyNone in
        if truthy last_user_message then concat_query last_user_message user_query
        else Ok user_query
      else Ok user_query
  end.

(* ===================================================================== *)
(** ** The world outside: provider, index, stdout, files *)
(* ===================================================================== *)

(** [openai] response objects: [response.data[i].embedding]. *)
Record Embedding : Type := { embedding : list float }.
Record CreateEmbeddingResponse : Type := { data : list Embedding }.

(** [azure.search.documents.models.VectorizedQuery]: an instance of the
    SDK's class, which declares [vector], [fields] and
    [k_nearest_neighbors]; the class has no parameter [k].  [fields] is what
    the caller gave, here a list. *)
Record VectorizedQuery : Type :=
  { vector : list float; fields : list string; k_nearest_neighbors : option Z }.

(** An element of [vector_queries]: an instance of the SDK's class, or a
    plain [dict] as the prompt flow writes it. *)
Inductive VectorQuery : Type :=
| QueryObject (query : VectorizedQuery)
| QueryDict (items : pydict).

Inductive QueryType : Type := SIMPLE | SEMANTIC.

(** The keyword arguments of [SearchClient.search] that the samples set.  A
    keyword that a call leaves out keeps the SDK's default, [None]. *)
Record SearchRequest : Type :=
  { search_text : pyval;
    vector_queries : list VectorQuery;
    select : list string;
    top : Z;
    query_type : option QueryType;
    semantic_configuration_name : option string }.

(** One entry of [upload_batch.actions]. *)
Record IndexAction : Type := { action : string; document : pydict }.

(** One entry of [result.results] after an upload. *)
Record IndexingResult : Type :=
  { key : string; succeeded : bool; error_message : string }.
Record IndexDocumentsResult : Type := { results : list IndexingResult }.

(** [openai] chat objects: the keyword arguments of
    [chat.completions.create] and [response.choices[i].message.content]. *)
Record ChatRequest : Type :=
  { chat_model : string;
    messages : list pydict;
    temperature : float;
    max_tokens : Z }.

Record Choice : Type := { message_content : pyval }.
Record ChatCompletion : Type := { choices : list Choice }.

(** What the program does to the outside, in the order it does it. *)
Inductive Event : Type :=
| EmbeddingsCreate (input model : string)
| SearchCall (request : SearchRequest)
| IndexDocuments (batch : list IndexAction)
| ChatCompletionsCreate (request : ChatRequest)
| Print (line : string)
| Sleep (milliseconds : Z).

(** The external services and the installed SDK.  Each service answers a
    request knowing everything that happened before it, and may raise instead
    of answering; a response object of the wrong shape raises at the
    attribute access that follows the call, inside the same [try], and is an
    answer [Raise] here.

    [vectorized_query_k v f n] is what the installed SDK makes of
    [VectorizedQuery(vector=v, fields=f, k=n)], a call that names a keyword
    the class does not declare: the releases that check their keywords raise
    [TypeError], those that do not build a query in which [n] is lost. *)
Record Services : Type :=
  { azure_openai_embedding_deployment : string;
    vectorized_query_k : list float -> list string -> Z -> res VectorizedQuery;
    embeddings_create : list Event -> string -> string -> res CreateEmbeddingResponse;
    search_client_search : list Event -> SearchRequest -> res (list pydict);
    search_client_index_documents : list Event -> list IndexAction -> res IndexDocumentsResult }.

(** The state a run threads: the events so far, oldest first, and the JSON
    files on disk (each an array of objects). *)
Record World : Type :=
  { trace : list Event;
    files : gmap string (list pydict) }.

Definition log (e : Event) (w : World) : World :=
  {| trace := trace w ++ [e]; files := files w |}.

(** *** The monad *)

Definition M (A : Type) : Type := World -> res A * World.

Definition ret {A} (a : A) : M A := fun w => (Ok a, w).

Definition bind {A B} (m : M A) (f : A -> M B) : M B :=
  fun w =>
    match m w with
    | (Ok a, w') => f a w'
    | (Raise e, w') => (Raise e, w')
    end.

Definition raise {A} (e : exn) : M A := fun w => (Raise e, w).

(** A computation that touches nothing outside. *)
Definition lift {A} (r : res A) : M A := fun w => (r, w).

(** [try: body  except Exception as e: handler e] *)
Definition try_except {A} (body : M A) (handler : exn -> M A) : M A :=
  fun w =>
    match body w with
    | (Ok a, w') => (Ok a, w')
    | (Raise e, w') => handler e w'
    end.

Declare Scope py_scope.
Delimit Scope py_scope with py.
Notation "x <- m ;; f" := (bind m (fun x => f))
  (at level 100, m at next level, right associativity) : py_scope.
Notation "m ;; f" := (bind m (fun _ => f))
  (at level 100, right associativity) : py_scope.
Local Open Scope py_scope.

Definition print (line : string) : M unit := fun w => (Ok tt, log (Print line) w).
Definition sleep (milliseconds : Z) : M unit := fun w => (Ok tt, log (Sleep milliseconds) w).

(** A call to a service: the request is recorded, then answered. *)
Definition call {A} (e : Event) (answer : list Event -> res A) : M A :=
  fun w => (answer (trace w), log e w).

(** [for x in xs: body x] *)
Fixpoint for_each {A} (xs : list A) (body : A -> M unit) : M unit :=
  match xs with
  | [] => ret tt
  | x :: rest => body x ;; for_each rest body
  end.

(** [with open(path, 'r') as f: json.load(f)] *)
Definition json_load (path : string) : M (list pydict) :=
  fun w =>
    match files w !! path with
    | Some documents => (Ok documents, w)
    | None => (Raise (Exn "FileNotFoundError" ("No such file or directory: " +:+ path)), w)
    end.

(** [with open(path, 'w') as f: json.dump(documents, f, ...)] *)
Definition json_dump (documents : list pydict) (path : string) : M unit :=
  fun w => (Ok tt, {| trace := trace w; files := <[path := documents]> (files w) |}).

(* ===================================================================== *)
(** ** generate_embeddings.py and vector_search_client.py: the adapter *)
(* ===================================================================== *)

Definition D : nat := 1536.

(** [[0.0] * 1536] *)
Definition zero_vector : list float := repeat 0%float 1536.

Definition max_input_chars : Z := 8000.

(** [if len(text) > 8000: text = text[:8000]] *)
Definition truncate (text : string) : string :=
  if (max_input_chars <? Z.of_nat (String.length text))%Z
  then PyStr.slice_to (Z.to_nat max_input_chars) text
  else text.

Section Adapter.
Variable svc : Services.

(** The body of the [try]. *)
Definition request_embedding (text : string) : M (list float) :=
  response <- call (EmbeddingsCreate text (azure_openai_embedding_deployment svc))
                   (fun history => embeddings_create svc history text
                                     (azure_openai_embedding_deployment svc)) ;;
  match data response with
  | first :: _ => ret (embedding first)
  | [] => raise (Exn "IndexError" "list index out of range")
  end.

(** The [except Exception as e] clause. *)
Definition embedding_failed (e : exn) : M (list float) :=
  print ("Error generating embeddings: " +:+ exn_str e) ;;
  ret zero_vector.

(** [get_embeddings(text)] of generate_embeddings.py.  The guard
    [not text or text.strip() == ""] is evaluated left to right; a truthy
    value that is not a [str] has no [strip]. *)
Definition get_embeddings (text : pyval) : M (list float) :=
  match text with
  | PyStr s =>
      if negb (truthy text) || String.eqb (PyStr.strip s) ""
      then ret zero_vector
      else try_except (request_embedding (truncate s)) embedding_failed
  | v =>
      if negb (truthy v) then ret zero_vector
      else raise (Exn "AttributeError"
                    ("'" +:+ type_name v +:+ "' object has no attribute 'strip'"))
  end.

(** [VectorSearchClient.generate_embeddings(text)]: the same code, on the
    client's own provider handle. *)
Definition generate_embeddings (text : pyval) : M (list float) :=
  match text with
  | PyStr s =>
      if negb (truthy text) || String.eqb (PyStr.strip s) ""
      then ret zero_vector
      else try_except (request_embedding (truncate s)) embedding_failed
  | v =>
      if negb (truthy v) then ret zero_vector
      else raise (Exn "AttributeError"
                    ("'" +:+ type_name v +:+ "' object has no attribute 'strip'"))
  end.

End Adapter.

(* ===================================================================== *)
(** ** vector_search_client.py: the three strategies *)
(* ===================================================================== *)

(** The projection every strategy asks for. *)
Definition selected_fields : list string :=
  ["id"; "title"; "content"; "category"; "sourceUrl"; "sourceName"].

Section SearchClient.
Variable svc : Services.

(** [self.search_client.search(...)] followed by
    [[dict(result) for result in results]]. *)
Definition run_search (request : SearchRequest) : M (list pydict) :=
  call (SearchCall request) (fun history => search_client_search svc history request).

(** An optional parameter is [None] when the call leaves it out; the
    defaults are those of the signatures. *)
Definition vector_search (query : pyval) (top : option Z) (vector_field : option string)
  : M (list pydict) :=
  let top := default 5%Z top in
  let vector_field := default "contentVector" vector_field in
  query_vector <- generate_embeddings svc query ;;
  vector_query <- lift (vectorized_query_k svc query_vector [vector_field] top) ;;
  run_search {| search_text := PyNone;
                vector_queries := [QueryObject vector_query];
                select := selected_fields;
                top := top;
                query_type := None;
                semantic_configuration_name := None |}.

Definition hybrid_search (query : pyval) (top : option Z) (vector_field : option string)
  : M (list pydict) :=
  let top := default 5%Z top in
  let vector_field := default "contentVector" vector_field in
  query_vector <- generate_embeddings svc query ;;
  vector_query <- lift (vectorized_query_k svc query_vector [vector_field] top) ;;
  run_search {| search_text := query;
                vector_queries := [QueryObject vector_query];
                select := selected_fields;
                top := top;
                query_type := Some SIMPLE;
                semantic_configuration_name := None |}.

Definition semantic_search (query : pyval) (top : option Z) (vector_field : option string)
    (semantic_config : option string) : M (list pydict) :=
  let top := default 5%Z top in
  let vector_field := default "contentVector" vector_field in
  let semantic_config := default "semantic-config" semantic_config in
  query_vector <- generate_embeddings svc query ;;
  vector_query <- lift (vectorized_query_k svc query_vector [vector_field] (top * 3)%Z) ;;
  run_search {| search_text := query;
                vector_queries := [QueryObject vector_query];
                select := selected_fields;
                top := top;
                query_type := Some SEMANTIC;
                semantic_configuration_name := Some semantic_config |}.

End SearchClient.

(* ===================================================================== *)
(** ** sample_web_app.py: the /api/search handler *)
(* ===================================================================== *)

(** *** [int(x)], as CPython 3.11 evaluates it with its default settings *)

Definition is_digit (c : ascii) : bool :=
  let n := nat_of_ascii c in ((48 <=? n) && (n <=? 57))%nat.

Definition digit_value (c : ascii) : Z := Z.of_nat (nat_of_ascii c - 48).

(** The blanks [int] skips around a number: TAB, LF, VT, FF, CR and SPACE,
    and NEL and NBSP, which it first turns into a space.  FS, GS, RS and US
    are blanks for [strip] and not for [int]. *)
Definition int_space (c : ascii) : bool :=
  existsb (Nat.eqb (nat_of_ascii c)) [9; 10; 11; 12; 13; 32; 133; 160]%nat.

Fixpoint skip_int_space (s : string) : string :=
  match s with
  | String c rest => if int_space c then skip_int_space rest else s
  | EmptyString => EmptyString
  end.

(** The run of digits and underscores at the front of [s]: the number of
    digits, their value and what follows, or nothing when two underscores
    meet or an underscore ends the run. *)
Fixpoint scan_digits (after_underscore : bool) (digits : nat) (acc : Z) (s : string)
  : option (nat * Z * string) :=
  match s with
  | EmptyString => if after_underscore then None else Some (digits, acc, EmptyString)
  | String c rest =>
      if is_digit c then scan_digits false (S digits) (acc * 10 + digit_value c)%Z rest
      else if Ascii.eqb c "_" then
        if after_underscore then None else scan_digits true digits acc rest
      else if after_underscore then None else Some (digits, acc, s)
  end.

(** [sys.get_int_max_str_digits()] *)
Definition int_max_str_digits : nat := 4300.

(** Why [int] refuses a string. *)
Inductive int_refusal : Type :=
| InvalidLiteral
| TooManyDigits (digits : nat).

(** [int(s)] for a [str]: blanks, an optional sign, digits in which single
    underscores may sit, blanks.  The limit on the digits is checked once
    the run of digits is read, before what follows it is looked at. *)
Definition int_of_str (s : string) : int_refusal + Z :=
  let after_blanks := skip_int_space s in
  let (negative, body) :=
    match after_blanks with
    | String "-" rest => (true, rest)
    | String "+" rest => (false, rest)
    | _ => (false, after_blanks)
    end in
  match body with
  | String "_" _ => inl InvalidLiteral
  | _ =>
      match scan_digits false 0 0%Z body with
      | None => inl InvalidLiteral
      | Some (digits, value, rest) =>
          if (int_max_str_digits <? digits)%nat then inl (TooManyDigits digits)
          else if (digits =? 0)%nat then inl InvalidLiteral
          else
            match skip_int_space rest with
            | EmptyString => inr (if negative then - value else value)%Z
            | _ => inl InvalidLiteral
            end
      end
  end.

Definition hex_digit (n : nat) : ascii :=
  if (n <? 10)%nat then ascii_of_nat (48 + n) else ascii_of_nat (87 + n).

(** One character of [repr(s)] between the quotes [quote]. *)
Definition repr_char (quote c : ascii) : string :=
  let n := nat_of_ascii c in
  if Ascii.eqb c quote || Ascii.eqb c "\" then String "\" (String c EmptyString)
  else if (n =? 9)%nat then "\t"
  else if (n =? 10)%nat then "\n"
  else if (n =? 13)%nat then "\r"
  else if (n <? 32)%nat || (n =? 127)%nat || ((128 <=? n) && (n <=? 160))%nat || (n =? 173)%nat
  then String "\" (String "x" (String (hex_digit (n / 16)) (String (hex_digit (n mod 16))
                                                               EmptyString)))
  else String c EmptyString.

Fixpoint repr_chars (quote : ascii) (s : string) : string :=
  match s with
  | EmptyString => EmptyString
  | String c rest => repr_char quote c +:+ repr_chars quote rest
  end.

Fixpoint has_char (c : ascii) (s : string) : bool :=
  match s with
  | EmptyString => false
  | String d rest => Ascii.eqb c d || has_char c rest
  end.

(** [repr(s)]: between single quotes, or between double quotes when [s]
    holds a single quote and no double quote. *)
Definition py_repr (s : string) : string :=
  let quote := if has_char "'" s && negb (has_char (ascii_of_nat 34) s)
               then ascii_of_nat 34 else "'"%char in
  String quote (repr_chars quote s +:+ String quote EmptyString).

(** [int(f)] for a [float]: truncation towards zero. *)
Definition int_of_float (f : float) : res Z :=
  match Prim2SF f with
  | S754_zero _ => Ok 0%Z
  | S754_infinity _ => Raise (Exn "OverflowError" "cannot convert float infinity to integer")
  | S754_nan => Raise (Exn "ValueError" "cannot convert float NaN to integer")
  | S754_finite sign m e =>
      let magnitude := (if 0 <=? e then Z.shiftl (Z.pos m) e else Z.shiftr (Z.pos m) (- e))%Z in
      Ok (if sign then - magnitude else magnitude)%Z
  end.

(** The message of a refusal shows at most 200 characters of [repr(s)]. *)
Definition py_int (v : pyval) : res Z :=
  match v with
  | PyInt z => Ok z
  | PyBool b => Ok (if b then 1 else 0)%Z
  | PyFloat f => int_of_float f
  | PyStr s =>
      match int_of_str s with
      | inr z => Ok z
      | inl InvalidLiteral =>
          Raise (Exn "ValueError"
                   ("invalid literal for int() with base 10: "
                      +:+ PyStr.slice_to 200 (py_repr s)))
      | inl (TooManyDigits digits) =>
          Raise (Exn "ValueError"
                   ("Exceeds the limit (" +:+ pretty int_max_str_digits
                      +:+ " digits) for integer string conversion: value has "
                      +:+ pretty digits
                      +:+ " digits; use sys.set_int_max_str_digits() to increase the limit"))
      end
  | v => Raise (Exn "TypeError"
                  ("int() argument must be a string, a bytes-like object or a real number, not '"
                     +:+ type_name v +:+ "'"))
  end.

(** [v == s] for a [str] literal [s] *)
Definition eq_str (v : pyval) (s : string) : bool :=
  match v with
  | PyStr x => String.eqb x s
  | _ => false
  end.

(** *** The response *)

Inductive JsonBody : Type :=
| ErrorBody (error : string)
| ResultsBody (results : list pydict) (count : nat) (query search_type : pyval).

Record HttpResponse : Type := { body : JsonBody; status : Z }.

(** [for x in xs: ys.append(f x)] *)
Fixpoint map_m {A B} (f : A -> M B) (xs : list A) : M (list B) :=
  match xs with
  | [] => ret []
  | x :: rest => y <- f x ;; ys <- map_m f rest ;; ret (y :: ys)
  end.

(** The content shown for one row:
    [if len(content) > 500: content = content[:500] + '...'] *)
Definition display_content (content : pyval) : res pyval :=
  match content with
  | PyStr s =>
      Ok (PyStr (if (500 <? String.length s)%nat then PyStr.slice_to 500 s +:+ "..." else s))
  | PyList l =>
      if (500 <? length l)%nat
      then Raise (Exn "TypeError" list_plus_str)
      else Ok (PyList l)
  | v => Raise (Exn "TypeError" ("object of type '" +:+ type_name v +:+ "' has no len()"))
  end.

Definition process_result (result : pydict) : M pydict :=
  content <- lift (display_content (dict_get_default result "content" (PyStr ""))) ;;
  ret (<["sourceName" := dict_get_default result "sourceName" (PyStr "")]>
      (<["sourceUrl" := dict_get_default result "sourceUrl" (PyStr "")]>
      (<["category" := dict_get_default result "category" (PyStr "")]>
      (<["content" := content]>
      (<["title" := dict_get_default result "title" (PyStr "")]>
      (<["id" := dict_get_default result "id" (PyStr "")]> (∅ : pydict))))))).

Section WebApp.
Variable svc : Services.

(** From [# Process results for display] to the final [return]. *)
Definition respond (query search_type : pyval) (results : list pydict) : M HttpResponse :=
  processed_results <- map_m process_result results ;;
  ret {| body := ResultsBody processed_results (length processed_results) query search_type;
         status := 200 |}.

(** [search()], on the JSON object of the request body. *)
Definition search (data : pydict) : M HttpResponse :=
  try_except
    (let query := dict_get_default data "query" (PyStr "") in
     let search_type := dict_get_default data "search_type" (PyStr "vector") in
     top <- lift (py_int (dict_get_default data "top" (PyInt 5))) ;;
     if negb (truthy query) then
       ret {| body := ErrorBody "Query is required"; status := 400 |}
     else if eq_str search_type "vector" then
       results <- vector_search svc query (Some top) None ;;
       respond query search_type results
     else if eq_str search_type "hybrid" then
       results <- hybrid_search svc query (Some top) None ;;
       respond query search_type results
     else if eq_str search_type "semantic" then
       results <- semantic_search svc query (Some top) None None ;;
       respond query search_type results
     else
       ret {| body := ErrorBody "Invalid search type"; status := 400 |})
    (fun e => ret {| body := ErrorBody (exn_str e); status := 500 |}).

End WebApp.

(* ===================================================================== *)
(** ** upload_documents.py *)
(* ===================================================================== *)

(** [range(start, stop, step)] for a positive [step]: [start],
    [start + step], ... while below [stop].  [fuel] bounds the count and
    [stop] is always enough. *)
Fixpoint range_loop (fuel i stop step : nat) : list nat :=
  match fuel with
  | O => []
  | S fuel' => if (i <? stop)%nat then i :: range_loop fuel' (i + step) stop step else []
  end.

Definition range (start stop step : nat) : list nat := range_loop stop start stop step.

(** [xs[i:j]] for [0 <= i] and [0 <= j] *)
Definition slice {A} (xs : list A) (i j : nat) : list A := firstn (j - i) (skipn i xs).

Definition batch_size : nat := 100.

(** [i//batch_size + 1], as the messages print it *)
Definition batch_number (i : nat) : string := pretty (i / batch_size + 1)%nat.

Definition upload_action (doc : pydict) : IndexAction :=
  {| action := "upload"; document := doc |}.

Section Upload.
Variable svc : Services.
Variable search_index_name : string.

(** The [for doc_result in result.results] loop. *)
Definition log_errors (rs : list IndexingResult) : M unit :=
  for_each rs (fun doc_result =>
    if negb (succeeded doc_result)
    then print ("Error indexing document ID: " +:+ key doc_result
                  +:+ ", Error: " +:+ error_message doc_result)
    else ret tt).

(** One turn of the [for i in range(0, len(documents), batch_size)] loop. *)
Definition upload_batch (documents : list pydict) (i : nat) : M unit :=
  let batch_end := Nat.min (i + batch_size) (length documents) in
  let batch := slice documents i batch_end in
  try_except
    (let actions := map upload_action batch in
     result <- call (IndexDocuments actions)
                    (fun history => search_client_index_documents svc history actions) ;;
     match results result with
     | [] => print ("No results returned for batch " +:+ batch_number i)
     | rs =>
         let succeeded := length (filter (fun r => succeeded r = true) rs) in
         print ("Batch " +:+ batch_number i +:+ ": " +:+ pretty succeeded +:+ "/"
                  +:+ pretty (length batch) +:+ " documents indexed successfully") ;;
         log_errors rs
     end)
    (fun e => print ("Error uploading batch " +:+ batch_number i +:+ ": " +:+ exn_str e)).

Definition upload_documents (documents_file : string) : M unit :=
  documents <- json_load documents_file ;;
  print ("Uploading " +:+ pretty (length documents) +:+ " documents to index '"
           +:+ search_index_name +:+ "'...") ;;
  for_each (range 0 (length documents) batch_size) (upload_batch documents) ;;
  print ("Document upload completed for index '" +:+ search_index_name +:+ "'").

End Upload.

(* ===================================================================== *)
(** ** generate_embeddings.py: the offline step *)
(* ===================================================================== *)

Section Offline.
Variable svc : Services.

(** One turn of [for i, doc in enumerate(documents)]; the turn assigns two
    keys of [doc] in place and yields the document as it then is. *)
Definition embed_document (i : nat) (doc : pydict) : M pydict :=
  (if (0 <? i)%nat && (i mod 10 =? 0)%nat
   then print ("Processed " +:+ pretty i +:+ " documents...") ;; sleep 500
   else ret tt) ;;
  title_embedding <- get_embeddings svc (dict_get_default doc "title" (PyStr "")) ;;
  content_embedding <- get_embeddings svc (dict_get_default doc "content" (PyStr "")) ;;
  ret (<["contentVector" := PyList content_embedding]>
         (<["titleVector" := PyList title_embedding]> doc)).

Fixpoint embed_documents (i : nat) (documents : list pydict) : M (list pydict) :=
  match documents with
  | [] => ret []
  | doc :: rest =>
      doc' <- embed_document i doc ;;
      rest' <- embed_documents (S i) rest ;;
      ret (doc' :: rest')
  end.

Definition output_name (documents_file : string) : string :=
  PyStr.replace ".json" "_with_embeddings.json" documents_file.

Definition process_documents (documents_file : string) : M (list pydict) :=
  documents <- json_load documents_file ;;
  print ("Processing " +:+ pretty (length documents) +:+ " documents...") ;;
  documents <- embed_documents 0 documents ;;
  print ("Completed processing " +:+ pretty (length documents)
           +:+ " documents with embeddings.") ;;
  let output_file := output_name documents_file in
  json_dump documents output_file ;;
  print ("Documents with embeddings saved to " +:+ output_file) ;;
  ret documents.

End Offline.

(* ===================================================================== *)
(** ** PromptFlows/vector_search.py and PromptFlows/generate_response.py *)
(* ===================================================================== *)

(** [d[k]] *)
Definition dict_item (d : pydict) (k : string) : res pyval :=
  match d !! k with
  | Some v => Ok v
  | None => Raise (Exn "KeyError" ("'" +:+ k +:+ "'"))
  end.

(** The line feed of the f-strings. *)
Definition LF : string := String (ascii_of_nat 10) EmptyString.

Module PromptFlows.
Section Flow.
Variable svc : Services.

(** [os.environ.get("EMBEDDING_MODEL_DEPLOYMENT")] and
    [os.environ.get("GPT_MODEL_DEPLOYMENT")] *)
Variable embedding_model_deployment : string.
Variable gpt_model_deployment : string.

(** [aoai_connection.chat.completions.create], which answers or raises,
    knowing what happened before. *)
Variable chat_completions_create : list Event -> ChatRequest -> res ChatCompletion.

(** [str(f)] of a [float], as an f-string prints it. *)
Variable format_float : float -> string.

(** The vector query of the flow is a [dict], the literal
    [{"vector": query_vector, "k": 3, "fields": "vectorEmbedding"}]. *)
Definition flow_request (search_query : string) (query_vector : list float) : SearchRequest :=
  {| search_text := PyStr search_query;
     vector_queries :=
       [QueryDict (<["vector" := PyList query_vector]>
                  (<["k" := PyInt 3]>
                  (<["fields" := PyStr "vectorEmbedding"]> (∅ : pydict))))];
     select := ["id"; "title"; "content"; "category"];
     top := 5;
     query_type := None;
     semantic_configuration_name := None |}.

(** The dictionary appended for one row; its items are evaluated in the
    order they are written. *)
Definition format_result (result : pydict) : M pydict :=
  id <- lift (dict_item result "id") ;;
  title <- lift (dict_item result "title") ;;
  content <- lift (dict_item result "content") ;;
  category <- lift (dict_item result "category") ;;
  score <- lift (dict_item result "@search.score") ;;
  ret (<["score" := score]>
      (<["category" := category]>
      (<["content" := content]>
      (<["title" := title]>
      (<["id" := id]> (∅ : pydict)))))).

Definition vector_search (search_query : string) : M (list pydict) :=
  embedding_response <-
    call (EmbeddingsCreate search_query embedding_model_deployment)
         (fun history => embeddings_create svc history search_query
                           embedding_model_deployment) ;;
  query_vector <-
    match data embedding_response with
    | first :: _ => ret (embedding first)
    | [] => raise (Exn "IndexError" "list index out of range")
    end ;;
  let request := flow_request search_query query_vector in
  search_results <- call (SearchCall request)
                         (fun history => search_client_search svc history request) ;;
  map_m format_result search_results.

(** [f"{v}"] *)
Definition py_format (v : pyval) : string :=
  match v with
  | PyNone => "None"
  | PyBool b => if b then "True" else "False"
  | PyInt z => pretty z
  | PyFloat f => format_float f
  | PyStr s => s
  | PyList l => "[" +:+ String.concat ", " (map format_float l) +:+ "]"
  end.

(** The two lines one document adds to the system message. *)
Definition document_lines (i : nat) (doc : pydict) : res string :=
  match dict_item doc "title" with
  | Raise e => Raise e
  | Ok title =>
      match dict_item doc "content" with
      | Raise e => Raise e
      | Ok content =>
          Ok ("Document " +:+ pretty i +:+ ": " +:+ py_format title +:+ LF
                +:+ "Content: " +:+ py_format content +:+ LF +:+ LF)
      end
  end.

(** [for i, doc in enumerate(retrieved_documents, 1): system_message += ...] *)
Fixpoint add_documents (i : nat) (retrieved_documents : list pydict) (system_message : string)
  : res string :=
  match retrieved_documents with
  | [] => Ok system_message
  | doc :: rest =>
      match document_lines i doc with
      | Raise e => Raise e
      | Ok lines => add_documents (S i) rest (system_message +:+ lines)
      end
  end.

Definition system_preamble : string :=
  "You are an AI assistant that helps answer questions about Azure AI Search. "
  +:+ "Base your answers on the following retrieved documents and cite your sources:"
  +:+ LF +:+ LF.

Definition citation_instructions : string :=
  LF +:+ "When responding, please include citations to the relevant documents in your answer using [Document X] format.".

Definition role_message (role : string) (content : pyval) : pydict :=
  <["role" := PyStr role]> (<["content" := content]> (∅ : pydict)).

Definition generate_response (user_query : pyval) (retrieved_documents chat_history : list pydict)
  : M pyval :=
  system_message <- lift (add_documents 1 retrieved_documents system_preamble) ;;
  let system_message := system_message +:+ citation_instructions in
  let messages :=
    [role_message "system" (PyStr system_message)]
      ++ chat_history
      ++ [role_message "user" user_query] in
  let request :=
    {| chat_model := gpt_model_deployment;
       messages := messages;
       temperature := 0.5%float;
       max_tokens := 800 |} in
  response <- call (ChatCompletionsCreate request)
                   (fun history => chat_completions_create history request) ;;
  match choices response with
  | first :: _ => ret (message_content first)
  | [] => raise (Exn "IndexError" "list index out of range")
  end.

End Flow.
End PromptFlows.

(* ===================================================================== *)
(** ** Vocabulary of the properties *)
(* ===================================================================== *)

(** The inputs the embedding provider was called with, oldest first. *)
Definition provider_inputs (events : list Event) : list string :=
  omap (fun e => match e with EmbeddingsCreate input _ => Some input | _ => None end) events.

(** The provider answers with vectors of dimension [D]. *)
Definition provider_dimension (svc : Services) : Prop :=
  forall history input model response first rest,
    embeddings_create svc history input model = Ok response ->
    data response = first :: rest ->
    length (embedding first) = D.

(** What a failed call leaves behind: the call, then the diagnostic. *)
Definition degraded (svc : Services) (text : string) (e : exn) (w : World)
  : res (list float) * World :=
  (Ok zero_vector,
   log (Print ("Error generating embeddings: " +:+ exn_str e))
     (log (EmbeddingsCreate text (azure_openai_embedding_deployment svc)) w)).

(** The world after [events] more. *)
Definition extend (w : World) (events : list Event) : World :=
  {| trace := trace w ++ events; files := files w |}.

(** The lines that report the documents the index refused. *)
Definition error_lines (rs : list IndexingResult) : list Event :=
  flat_map (fun r =>
      if succeeded r then []
      else [Print ("Error indexing document ID: " +:+ key r
                     +:+ ", Error: " +:+ error_message r)])
    rs.

(** What one batch leaves in the trace: its submission, then its report,
    which is one of three. *)
Inductive attempt (number : nat) (batch : list pydict) : list Event -> Prop :=
| attempt_raised (e : exn) :
    attempt number batch
      [IndexDocuments (map upload_action batch);
       Print ("Error uploading batch " +:+ pretty number +:+ ": " +:+ exn_str e)]
| attempt_no_results :
    attempt number batch
      [IndexDocuments (map upload_action batch);
       Print ("No results returned for batch " +:+ pretty number)]
| attempt_results (rs : list IndexingResult) :
    rs <> [] ->
    attempt number batch
      ([IndexDocuments (map upload_action batch);
        Print ("Batch " +:+ pretty number +:+ ": "
                 +:+ pretty (length (filter (fun r => succeeded r = true) rs)) +:+ "/"
                 +:+ pretty (length batch) +:+ " documents indexed successfully")]
         ++ error_lines rs).

(** The batches attempted one after the other, numbered from [number]. *)
Inductive attempts : nat -> list (list pydict) -> list Event -> Prop :=
| attempts_nil (number : nat) : attempts number [] []
| attempts_cons (number : nat) (batch : list pydict) (rest : list (list pydict))
    (events later : list Event) :
    attempt number batch events ->
    attempts (S number) rest later ->
    attempts number (batch :: rest) (events ++ later).

(** The batches, as the loop of [upload_documents] cuts them. *)
Definition batches_of (documents : list pydict) : list (list pydict) :=
  map (fun i => slice documents i (Nat.min (i + batch_size) (length documents)))
    (range 0 (length documents) batch_size).

(** The batches submitted to the index, oldest first. *)
Definition submitted (events : list Event) : list (list pydict) :=
  omap (fun e => match e with
                 | IndexDocuments batch => Some (map document batch)
                 | _ => None
                 end) events.

(** A text field of a document: missing, [null], or a string. *)
Definition text_or_absent (doc : pydict) (field : string) : Prop :=
  doc !! field = None \/ doc !! field = Some PyNone \/ exists s, doc !! field = Some (PyStr s).

(** [doc'] is [doc] after the two assignments of the offline step. *)
Definition with_vectors (doc doc' : pydict) : Prop :=
  exists title_embedding content_embedding,
    doc' = <["contentVector" := PyList content_embedding]>
             (<["titleVector" := PyList title_embedding]> doc).

(** The batch that starts at the [q]-th hundred. *)
Definition batch_at (documents : list pydict) (q : nat) : list pydict :=
  slice documents (100 * q) (Nat.min (100 * q + 100) (length documents)).

(** A row whose [content] the handler can show: missing, or a string. *)
Definition has_text_content (row : pydict) : Prop :=
  row !! "content" = None \/ exists c, row !! "content" = Some (PyStr c).

(** [shown] is what the handler returns for [row]: the six fields and no
    other, each as the row has it or empty, the content cut at 500
    characters and marked with an ellipsis. *)
Definition displayed (row shown : pydict) : Prop :=
  dom shown = (list_to_set selected_fields : gset string)
  /\ (forall field,
        field ∈ ["id"; "title"; "category"; "sourceUrl"; "sourceName"] ->
        shown !! field = Some (dict_get_default row field (PyStr "")))
  /\ (exists c,
        dict_get_default row "content" (PyStr "") = PyStr c
        /\ shown !! "content"
           = Some (PyStr (if (500 <? String.length c)%nat
                          then PyStr.slice_to 500 c +:+ "..." else c))).

(** The pauses taken, in milliseconds, oldest first. *)
Definition sleeps (events : list Event) : list Z :=
  omap (fun e => match e with Sleep ms => Some ms | _ => None end) events.

(** The documents before which the offline step pauses: every tenth, the
    first excepted. *)
Definition paced (i : nat) : bool := (0 <? i)%nat && (i mod 10 =? 0)%nat.

(** What the provider is asked for one field of a document: its text cut
    to 8000 characters, or nothing when the field is blank or is not text. *)
Definition field_text (doc : pydict) (field : string) : list string :=
  match dict_get_default doc field (PyStr "") with
  | PyStr s => if PyStr.all_space s then [] else [truncate s]
  | _ => []
  end.

Definition embedded_texts (doc : pydict) : list string :=
  field_text doc "title" ++ field_text doc "content".

(** A field with nothing to embed: missing, [null], or a blank string. *)
Definition blank_field (doc : pydict) (field : string) : Prop :=
  doc !! field = None \/ doc !! field = Some PyNone
  \/ exists s, doc !! field = Some (PyStr s) /\ PyStr.all_space s = true.

(** A field holding a value the adapter refuses: truthy and not a string. *)
Definition non_text_field (doc : pydict) (field : string) (v : pyval) : Prop :=
  doc !! field = Some v /\ truthy v = true /\ forall s, v <> PyStr s.

(** The keys the prompt flow reads of a row, in the order it reads them. *)
Definition flow_keys : list string := ["id"; "title"; "content"; "category"; "@search.score"].

(** [out] is what the prompt flow returns for [row]: five keys, the score
    under the name [score]. *)
Definition scored (row out : pydict) : Prop :=
  dom out = ({[ "id"; "title"; "content"; "category"; "score" ]} : gset string)
  /\ (forall field, field ∈ ["id"; "title"; "content"; "category"] ->
                    out !! field = row !! field)
  /\ out !! "score" = row !! "@search.score".

(** A retrieved document the response prompt can quote. *)
Definition quotable (doc : pydict) : Prop :=
  is_Some (doc !! "title") /\ is_Some (doc !! "content").

(* ===================================================================== *)
(** ** Concrete inputs used by the examples below *)
(* ===================================================================== *)

Definition chat_message (role content : string) : pydict :=
  <["role" := PyStr role]> (<["content" := PyStr content]> (∅ : pydict)).

Definition empty_world : World := {| trace := []; files := ∅ |}.

(** An SDK release that does not check its keywords: the query is built and
    the number given as [k] is lost. *)
Definition drops_k (v : list float) (f : list string) (n : Z) : res VectorizedQuery :=
  Ok {| vector := v; fields := f; k_nearest_neighbors := None |}.

(** A provider around a fixed answer; the index finds nothing and accepts
    every upload. *)
Definition provider_answering (answer : res CreateEmbeddingResponse) : Services :=
  {| azure_openai_embedding_deployment := "text-embedding-ada-002";
     vectorized_query_k := drops_k;
     embeddings_create := fun _ _ _ => answer;
     search_client_search := fun _ _ => Ok [];
     search_client_index_documents := fun _ _ => Ok {| results := [] |} |}.

(** A deployment whose vectors have three components. *)
Definition short_provider : Services :=
  provider_answering (Ok {| data := [ {| embedding := [1%float; 2%float; 3%float] |} ] |}).

(** A deployment whose vectors have 1536 components. *)
Definition ada_provider : Services :=
  provider_answering (Ok {| data := [ {| embedding := repeat 1%float 1536 |} ] |}).

(** A provider that is out of quota. *)
Definition throttled_provider : Services :=
  provider_answering (Raise (Exn "RateLimitError" "quota exceeded")).

(** 8001 characters. *)
Definition long_text : string := string_of_list_ascii (repeat "a"%char (Z.to_nat 8001)).

(** A request body naming a strategy the handler does not know. *)
Definition fuzzy_request : pydict :=
  <["query" := PyStr "cloud"]> (<["search_type" := PyStr "fuzzy"]> (∅ : pydict)).

(** The same with a [top] that is not a number. *)
Definition bad_top_request : pydict :=
  <["query" := PyStr "cloud"]> (<["search_type" := PyStr "fuzzy"]>
    (<["top" := PyStr "ten"]> (∅ : pydict))).

(** An index that fails on the second upload it receives and accepts the
    others. *)
Definition uploads_so_far (history : list Event) : nat :=
  length (submitted history).

Definition flaky_index : Services :=
  {| azure_openai_embedding_deployment := "text-embedding-ada-002";
     vectorized_query_k := drops_k;
     embeddings_create := fun _ _ _ => Ok {| data := [] |};
     search_client_search := fun _ _ => Ok [];
     search_client_index_documents := fun history batch =>
       if (uploads_so_far history =? 1)%nat
       then Raise (Exn "ServiceRequestError" "connection reset")
       else Ok {| results := map (fun a => {| key := "doc"; succeeded := true;
                                              error_message := "" |}) batch |} |}.

(** 250 documents waiting in the file the upload script reads. *)
Definition sample_document : pydict :=
  <["id" := PyStr "doc"]> (<["title" := PyStr "Cloud"]> (∅ : pydict)).

Definition upload_world : World :=
  {| trace := [];
     files := <["documents_with_embeddings.json" := repeat sample_document 250]> ∅ |}.

(** A document that went through the offline step once already. *)
Definition stale_document : pydict :=
  <["id" := PyStr "doc"]> (<["title" := PyStr "Cloud"]>
    (<["titleVector" := PyStr "stale"]> (∅ : pydict))).

Definition stale_world : World :=
  {| trace := []; files := <["documents.json" := [stale_document]]> ∅ |}.

(** Two documents waiting for their vectors. *)
Definition offline_world : World :=
  {| trace := [];
     files := <["documents.json" := [sample_document; sample_document]]> ∅ |}.

(** An index holding one row, behind a provider of three-component
    vectors. *)
Definition catalog_row : pydict :=
  <["id" := PyStr "7"]> (<["title" := PyStr "Cloud"]>
    (<["content" := PyStr "Elastic capacity."]>
      (<["category" := PyStr "azure"]> (<["@search.score" := PyInt 1]> (∅ : pydict))))).

Definition catalog : Services :=
  {| azure_openai_embedding_deployment := "text-embedding-ada-002";
     vectorized_query_k := drops_k;
     embeddings_create := fun _ _ _ =>
       Ok {| data := [ {| embedding := [1%float; 2%float; 3%float] |} ] |};
     search_client_search := fun _ _ => Ok [catalog_row];
     search_client_index_documents := fun _ _ => Ok {| results := [] |} |}.

(** An index that is down. *)
Definition offline_index : Services :=
  {| azure_openai_embedding_deployment := "text-embedding-ada-002";
     vectorized_query_k := drops_k;
     embeddings_create := fun _ _ _ =>
       Ok {| data := [ {| embedding := [1%float; 2%float; 3%float] |} ] |};
     search_client_search := fun _ _ => Raise (Exn "HttpResponseError" "service unavailable");
     search_client_index_documents := fun _ _ =>
       Raise (Exn "HttpResponseError" "service unavailable") |}.

Definition hybrid_request : pydict :=
  <["query" := PyStr "cloud"]> (<["search_type" := PyStr "hybrid"]>
    (<["top" := PyStr "3"]> (∅ : pydict))).

(** Twenty-five documents waiting for their vectors. *)
Definition long_offline_world : World :=
  {| trace := []; files := <["documents.json" := repeat sample_document 25]> ∅ |}.

(** A document whose title is a number, after one that is in order. *)
Definition numbered_document : pydict :=
  <["id" := PyStr "n"]> (<["title" := PyInt 2024]> (∅ : pydict)).

Definition numbered_world : World :=
  {| trace := [];
     files := <["documents.json" := [sample_document; numbered_document]]> ∅ |}.

(** A document with an identifier and nothing to embed. *)
Definition bare_document : pydict :=
  <["id" := PyStr "b"]> (<["content" := PyStr "  "]> (∅ : pydict)).

Definition bare_world : World :=
  {| trace := []; files := <["documents.json" := [bare_document]]> ∅ |}.

(** A chat model that answers every request the same way. *)
Definition canned_chat (history : list Event) (request : ChatRequest) : res ChatCompletion :=
  Ok {| choices := [ {| message_content := PyStr "See [Document 1]." |} ] |}.

(** A row of the index without its score. *)
Definition unscored_row : pydict :=
  <["id" := PyStr "7"]> (<["title" := PyStr "Cloud"]>
    (<["content" := PyStr "Elastic capacity."]>
      (<["category" := PyStr "azure"]> (∅ : pydict)))).

Definition unscored_catalog : Services :=
  {| azure_openai_embedding_deployment := "text-embedding-ada-002";
     vectorized_query_k := drops_k;
     embeddings_create := fun _ _ _ =>
       Ok {| data := [ {| embedding := [1%float; 2%float; 3%float] |} ] |};
     search_client_search := fun _ _ => Ok [unscored_row];
     search_client_index_documents := fun _ _ => Ok {| results := [] |} |}.

(* ===================================================================== *)
(** * Properties *)
(* ===================================================================== *)

(** ** Strings *)

Module PyStrFacts.
Import PyStr.

Lemma lstrip_empty_iff s : lstrip s = "" <-> all_space s = true.
Proof.
  induction s as [|c s IH]; simpl; [tauto|].
  destruct (is_space c); simpl; [exact IH|].
  split; discriminate.
Qed.

Lemma all_space_rev_onto s acc :
  all_space (rev_onto s acc) = all_space s && all_space acc.
Proof.
  revert acc. induction s as [|c s IH]; intros acc; simpl; [reflexivity|].
  rewrite IH. simpl. destruct (is_space c), (all_space s); reflexivity.
Qed.

Lemma all_space_rev s : all_space (rev s) = all_space s.
Proof. unfold rev. rewrite all_space_rev_onto. simpl. apply andb_true_r. Qed.

Lemma rev_onto_empty s acc : rev_onto s acc = "" -> s = "" /\ acc = "".
Proof.
  revert acc. induction s as [|c s IH]; intros acc; simpl; [tauto|].
  intros H. apply IH in H as [_ H]. discriminate.
Qed.

Lemma all_space_lstrip s : all_space (lstrip s) = all_space s.
Proof.
  induction s as [|c s IH]; simpl; [reflexivity|].
  destruct (is_space c) eqn:E; simpl; [exact IH|].
  rewrite E. reflexivity.
Qed.

Lemma rstrip_empty_iff s : rstrip s = "" <-> all_space s = true.
Proof.
  unfold rstrip. split.
  - intros H. apply rev_onto_empty in H as [H _].
    apply lstrip_empty_iff in H. rewrite all_space_rev in H. exact H.
  - intros H. rewrite <- all_space_rev in H. apply lstrip_empty_iff in H.
    rewrite H. reflexivity.
Qed.

(** [s.strip() == ""] holds exactly of the strings made of blanks. *)
Lemma strip_empty s : String.eqb (strip s) "" = all_space s.
Proof.
  unfold strip.
  destruct (all_space s) eqn:E.
  - apply String.eqb_eq, rstrip_empty_iff. rewrite all_space_lstrip. exact E.
  - apply String.eqb_neq. intros H. apply rstrip_empty_iff in H.
    rewrite all_space_lstrip in H. congruence.
Qed.

Lemma all_space_nonempty s : all_space s = false -> String.eqb s "" = false.
Proof. destruct s; simpl; [discriminate | reflexivity]. Qed.

(** [s[:n]] is the library's [substring 0 n s]. *)
Lemma slice_to_substring n s : slice_to n s = substring 0 n s.
Proof.
  revert s. induction n as [|n IH]; intros [|c s]; simpl; try reflexivity.
  rewrite IH. reflexivity.
Qed.

End PyStrFacts.

(** ** Query reformulation *)

Lemma find_last_user_skip (later rest : list pydict) (d : pyval) :
  Forall (fun message => role_is_user message = false) later ->
  find_last_user (later ++ rest) d = find_last_user rest d.
Proof.
  induction 1 as [|message later Hm _ IH]; simpl; [reflexivity|].
  rewrite Hm. exact IH.
Qed.

Lemma content_of_user_message (message : pydict) (content : string) :
  message !! "content" = Some (PyStr content) ->
  dict_get message "content" = PyStr content.
Proof. intros H. unfold dict_get. rewrite H. reflexivity. Qed.

(** The guard of the look-back, in words: fewer than five tokens, or
    [more], or [elaborat], the last two whatever the case of the letters. *)
Lemma needs_context_true (user_query : string) :
  (length (PyStr.split user_query) < 5)%nat
  \/ PyStr.contains "more" (PyStr.lower user_query) = true
  \/ PyStr.contains "elaborat" (PyStr.lower user_query) = true ->
  needs_context user_query = true.
Proof.
  unfold needs_context. intros [H | [H | H]].
  - apply Nat.ltb_lt in H. rewrite H. reflexivity.
  - rewrite H. apply orb_true_iff. left. apply orb_true_r.
  - rewrite H. apply orb_true_r.
Qed.

Lemma needs_context_false (user_query : string) :
  (5 <= length (PyStr.split user_query))%nat
  /\ PyStr.contains "more" (PyStr.lower user_query) = false
  /\ PyStr.contains "elaborat" (PyStr.lower user_query) = false ->
  needs_context user_query = false.
Proof.
  unfold needs_context. intros (H1 & H2 & H3).
  apply Nat.ltb_ge in H1. rewrite H1, H2, H3. reflexivity.
Qed.

(** C3, as amended.  When the look-back applies and the most recent
    user-role message of the history has a non-empty string as content, the
    search string is that content, one space, and the query. *)
Theorem reformulate_appends_last_user
    (user_query : string) (earlier : list pydict) (message : pydict)
    (later : list pydict) (content : string) :
  (length (PyStr.split user_query) < 5)%nat
  \/ PyStr.contains "more" (PyStr.lower user_query) = true
  \/ PyStr.contains "elaborat" (PyStr.lower user_query) = true ->
  role_is_user message = true ->
  Forall (fun m => role_is_user m = false) later ->
  message !! "content" = Some (PyStr content) ->
  content <> "" ->
  extract_search_query user_query (earlier ++ message :: later)
  = Ok (content +:+ " " +:+ user_query).
Proof.
  intros Hneeds%needs_context_true Huser Hlater Hcontent Hne.
  unfold extract_search_query.
  destruct (earlier ++ message :: later) as [|m0 rest0] eqn:Hhist.
  { destruct earlier; discriminate. }
  rewrite <- Hhist, Hneeds.
  rewrite rev_app_distr. simpl. rewrite <- app_assoc.
  rewrite find_last_user_skip by (apply Forall_rev; exact Hlater).
  simpl. rewrite Huser, (content_of_user_message _ _ Hcontent). simpl.
  destruct (String.eqb_spec content ""); [contradiction|]. reflexivity.
Qed.

Lemma reformulate_appends_last_user_witness :
  extract_search_query "tell me more"
    [chat_message "user" "tell me about X"; chat_message "assistant" "..."]
  = Ok "tell me about X tell me more".
Proof.
  apply (reformulate_appends_last_user "tell me more" []
           (chat_message "user" "tell me about X")
           [chat_message "assistant" "..."] "tell me about X").
  - left. vm_compute. lia.
  - vm_compute. reflexivity.
  - constructor; [vm_compute; reflexivity | constructor].
  - vm_compute. reflexivity.
  - discriminate.
Defined.

(** C3, as stated, fails on a most recent user message whose content is
    empty: the guard [if last_user_message:] leaves the query as it is, where
    the claim has it prefixed by the empty content and a space. *)
Lemma reformulate_empty_content_counterexample :
  (length (PyStr.split "more") < 5)%nat
  /\ role_is_user (chat_message "user" "") = true
  /\ extract_search_query "more" [chat_message "user" ""] = Ok "more"
  /\ Ok "more" <> Ok ("" +:+ " " +:+ "more").
Proof.
  split; [vm_compute; lia|].
  split; [vm_compute; reflexivity|].
  split; [vm_compute; reflexivity|].
  discriminate.
Qed.

(** C7.  The query comes back unchanged when the history is empty, and when
    the look-back does not apply, whatever the history holds. *)
Theorem reformulate_unchanged (user_query : string) (chat_history : list pydict) :
  chat_history = []
  \/ ((5 <= length (PyStr.split user_query))%nat
      /\ PyStr.contains "more" (PyStr.lower user_query) = false
      /\ PyStr.contains "elaborat" (PyStr.lower user_query) = false) ->
  extract_search_query user_query chat_history = Ok user_query.
Proof.
  intros [-> | Hno%needs_context_false]; [reflexivity|].
  unfold extract_search_query. rewrite Hno.
  destruct chat_history; reflexivity.
Qed.

Lemma reformulate_unchanged_witness :
  extract_search_query "what is the capital of France and why"
    [chat_message "user" "tell me about X"; chat_message "assistant" "..."]
  = Ok "what is the capital of France and why".
Proof.
  apply reformulate_unchanged. right.
  split; [vm_compute; lia|]. split; vm_compute; reflexivity.
Defined.

(** ** The embedding adapter *)

Section AdapterFacts.
Variable svc : Services.

Lemma generate_embeddings_eq : generate_embeddings svc = get_embeddings svc.
Proof. reflexivity. Qed.

(** Blank text: the zero vector, and nothing happens. *)
Lemma get_embeddings_blank (t : string) (w : World) :
  PyStr.all_space t = true ->
  get_embeddings svc (PyStr t) w = (Ok zero_vector, w).
Proof.
  intros H. unfold get_embeddings.
  rewrite PyStrFacts.strip_empty, H, orb_true_r. reflexivity.
Qed.

(** Any other text: one provider call on the truncated text, then one of
    three endings. *)
Lemma get_embeddings_run (t : string) (w : World) :
  PyStr.all_space t = false ->
  get_embeddings svc (PyStr t) w =
    let model := azure_openai_embedding_deployment svc in
    let w1 := log (EmbeddingsCreate (truncate t) model) w in
    match embeddings_create svc (trace w) (truncate t) model with
    | Ok response =>
        match data response with
        | first :: _ => (Ok (embedding first), w1)
        | [] => (Ok zero_vector,
                 log (Print "Error generating embeddings: list index out of range") w1)
        end
    | Raise e =>
        (Ok zero_vector, log (Print ("Error generating embeddings: " +:+ exn_str e)) w1)
    end.
Proof.
  intros H. unfold get_embeddings.
  rewrite PyStrFacts.strip_empty, H. simpl.
  rewrite (PyStrFacts.all_space_nonempty _ H). simpl.
  unfold try_except, request_embedding, bind, call. simpl.
  destruct (embeddings_create svc (trace w) (truncate t)
              (azure_openai_embedding_deployment svc)) as [response|e]; [|reflexivity].
  destruct (data response); reflexivity.
Qed.

(** On text, the adapter always returns a vector. *)
Lemma get_embeddings_returns (t : string) (w : World) :
  exists v, fst (get_embeddings svc (PyStr t) w) = Ok v.
Proof.
  destruct (PyStr.all_space t) eqn:H.
  - rewrite get_embeddings_blank by exact H. eauto.
  - rewrite get_embeddings_run by exact H. simpl.
    destruct (embeddings_create _ _ _ _) as [response|e]; [|eauto].
    destruct (data response); eauto.
Qed.

End AdapterFacts.

Lemma zero_vector_length : length zero_vector = D.
Proof. apply repeat_length. Qed.

(** C2, as stated, fails on a deployment whose vectors are not 1536 long:
    the adapter hands the provider's vector on as it is. *)
Lemma embed_dimension_counterexample :
  fst (get_embeddings short_provider (PyStr "hello") empty_world)
  = Ok [1%float; 2%float; 3%float]
  /\ length [1%float; 2%float; 3%float] <> D.
Proof. split; [vm_compute; reflexivity | vm_compute; lia]. Qed.

(** C2, as amended.  The vector has [D] elements whenever the provider's
    vectors have; and for blank text it is the zero vector of length [D], the
    world being left as it was: no call to the provider, no event at all. *)
Theorem embed_dimension (svc : Services) (t : string) (w : World) :
  (provider_dimension svc ->
     (exists v, fst (get_embeddings svc (PyStr t) w) = Ok v /\ length v = D)
     /\ (exists v, fst (generate_embeddings svc (PyStr t) w) = Ok v /\ length v = D))
  /\ (PyStr.all_space t = true ->
        get_embeddings svc (PyStr t) w = (Ok zero_vector, w)
        /\ generate_embeddings svc (PyStr t) w = (Ok zero_vector, w)
        /\ length zero_vector = D).
Proof.
  split.
  - intros Hdim. change (generate_embeddings svc) with (get_embeddings svc).
    assert (exists v, fst (get_embeddings svc (PyStr t) w) = Ok v /\ length v = D) as H;
      [|split; exact H].
    destruct (PyStr.all_space t) eqn:Hblank.
    + rewrite get_embeddings_blank by exact Hblank.
      exists zero_vector. split; [reflexivity | apply zero_vector_length].
    + rewrite get_embeddings_run by exact Hblank. simpl.
      destruct (embeddings_create _ _ _ _) as [response|e] eqn:Hanswer.
      * destruct (data response) as [|first rest] eqn:Hdata; simpl.
        -- exists zero_vector. split; [reflexivity | apply zero_vector_length].
        -- exists (embedding first). split; [reflexivity|].
           exact (Hdim _ _ _ _ _ _ Hanswer Hdata).
      * exists zero_vector. split; [reflexivity | apply zero_vector_length].
  - intros Hblank. change (generate_embeddings svc) with (get_embeddings svc).
    rewrite get_embeddings_blank by exact Hblank.
    split; [reflexivity|]. split; [reflexivity | apply zero_vector_length].
Qed.

Lemma ada_provider_dimension : provider_dimension ada_provider.
Proof.
  intros history input model response first rest Hanswer Hdata.
  injection Hanswer as <-. injection Hdata as <- _. vm_compute. reflexivity.
Defined.

Lemma embed_dimension_witness :
  (exists v, fst (get_embeddings ada_provider (PyStr "hello") empty_world) = Ok v
             /\ length v = D)
  /\ get_embeddings ada_provider (PyStr "   ") empty_world = (Ok zero_vector, empty_world).
Proof.
  split.
  - exact (proj1 (proj1 (embed_dimension ada_provider "hello" empty_world)
                    ada_provider_dimension)).
  - refine (proj1 (proj2 (embed_dimension ada_provider "   " empty_world) _)).
    vm_compute. reflexivity.
Defined.

(** C5.  Text that is not blank reaches the provider once: cut to its first
    8000 characters when it is longer than that, whole otherwise. *)
Theorem embed_truncates (svc : Services) (t : string) (w : World) :
  PyStr.all_space t = false ->
  let sent_by (embed : Services -> pyval -> M (list float)) :=
    provider_inputs (trace (snd (embed svc (PyStr t) w))) in
  ((8000 < Z.of_nat (String.length t))%Z ->
     sent_by get_embeddings = provider_inputs (trace w) ++ [substring 0 (Z.to_nat 8000) t]
     /\ sent_by generate_embeddings
        = provider_inputs (trace w) ++ [substring 0 (Z.to_nat 8000) t])
  /\ ((Z.of_nat (String.length t) <= 8000)%Z ->
        sent_by get_embeddings = provider_inputs (trace w) ++ [t]
        /\ sent_by generate_embeddings = provider_inputs (trace w) ++ [t]).
Proof.
  intros Hblank sent_by.
  assert (sent_by get_embeddings = provider_inputs (trace w) ++ [truncate t]) as Hsent.
  { unfold sent_by. rewrite get_embeddings_run by exact Hblank. simpl.
    destruct (embeddings_create _ _ _ _) as [response|e];
      [destruct (data response)|]; simpl;
      unfold provider_inputs; rewrite ?omap_app; simpl; rewrite ?app_nil_r; reflexivity. }
  assert (sent_by generate_embeddings = sent_by get_embeddings) as -> by reflexivity.
  rewrite Hsent. unfold truncate, max_input_chars.
  split; intros Hlen.
  - apply Z.ltb_lt in Hlen. rewrite Hlen, PyStrFacts.slice_to_substring. split; reflexivity.
  - apply Z.ltb_ge in Hlen. rewrite Hlen. split; reflexivity.
Qed.

Lemma embed_truncates_witness :
  provider_inputs (trace (snd (get_embeddings ada_provider (PyStr long_text) empty_world)))
  = provider_inputs (trace empty_world) ++ [substring 0 (Z.to_nat 8000) long_text].
Proof.
  refine (proj1 (proj1 (embed_truncates ada_provider long_text empty_world _) _)).
  - vm_compute. reflexivity.
  - vm_compute. reflexivity.
Defined.

(** C6.  On text the adapter returns and never raises; when the provider
    raises, or answers with an empty [data] list (so that [data[0]] raises
    [IndexError]), the result is the zero vector and the last event is the
    diagnostic line carrying [str(e)] of that exception. *)
Theorem embed_absorbs_failures (svc : Services) (t : string) (w : World) :
  let text := truncate t in
  let answer := embeddings_create svc (trace w) text (azure_openai_embedding_deployment svc) in
  (exists v, fst (get_embeddings svc (PyStr t) w) = Ok v)
  /\ (exists v, fst (generate_embeddings svc (PyStr t) w) = Ok v)
  /\ (PyStr.all_space t = false ->
      forall e,
        answer = Raise e
        \/ (exists response, answer = Ok response /\ data response = []
                             /\ e = Exn "IndexError" "list index out of range") ->
        get_embeddings svc (PyStr t) w = degraded svc text e w
        /\ generate_embeddings svc (PyStr t) w = degraded svc text e w
        /\ length zero_vector = D).
Proof.
  intros text answer. change (generate_embeddings svc) with (get_embeddings svc).
  split; [apply get_embeddings_returns|].
  split; [apply get_embeddings_returns|].
  intros Hblank e Hfail.
  rewrite get_embeddings_run by exact Hblank. simpl. fold text. fold answer.
  destruct Hfail as [-> | (response & -> & Hdata & ->)].
  - split; [reflexivity|]. split; [reflexivity | apply zero_vector_length].
  - rewrite Hdata.
    split; [reflexivity|]. split; [reflexivity | apply zero_vector_length].
Qed.

Lemma embed_absorbs_failures_witness :
  get_embeddings throttled_provider (PyStr "hello") empty_world
  = (Ok zero_vector,
     {| trace := [EmbeddingsCreate "hello" "text-embedding-ada-002";
                  Print "Error generating embeddings: quota exceeded"];
        files := ∅ |}).
Proof.
  refine (proj1 (proj2 (proj2 (embed_absorbs_failures throttled_provider "hello" empty_world))
                   _ (Exn "RateLimitError" "quota exceeded") _)).
  - vm_compute. reflexivity.
  - left. reflexivity.
Defined.

(** C10.  [None] is answered like the empty string: the zero vector of
    length [D], no call to the provider, no exception. *)
Theorem embed_none (svc : Services) (w : World) :
  get_embeddings svc PyNone w = (Ok zero_vector, w)
  /\ generate_embeddings svc PyNone w = (Ok zero_vector, w)
  /\ get_embeddings svc PyNone w = get_embeddings svc (PyStr "") w
  /\ generate_embeddings svc PyNone w = generate_embeddings svc (PyStr "") w
  /\ length zero_vector = D.
Proof.
  split; [reflexivity|]. split; [reflexivity|].
  split; [reflexivity|]. split; [reflexivity | apply zero_vector_length].
Qed.

(** ** The search client *)

(** Leaving [semantic_config] out is passing [semantic-config], whatever
    the services and the SDK do. *)
Lemma semantic_search_default_config
    (svc : Services) (query : pyval) (top : option Z) (vector_field : option string) :
  semantic_search svc query top vector_field None
  = semantic_search svc query top vector_field (Some "semantic-config").
Proof. reflexivity. Qed.

(** C1, as stated, fails on a call that leaves [semantic_config] out: the
    parameter falls back on its default, so that, where the SDK builds the
    vector query, the search is issued under the name [semantic-config] and
    the caller gets the rows, not an error. *)
Lemma semantic_search_default_counterexample :
  exists request w',
    semantic_search ada_provider (PyStr "cloud") (Some 5%Z) None None empty_world = (Ok [], w')
    /\ trace w' = [EmbeddingsCreate "cloud" "text-embedding-ada-002"; SearchCall request]
    /\ query_type request = Some SEMANTIC
    /\ semantic_configuration_name request = Some "semantic-config".
Proof.
  eexists. eexists. split; [reflexivity|]. split; [reflexivity|]. split; reflexivity.
Qed.

(** C1, as amended.  A semantic search on a text query embeds the query and
    hands the SDK a vector query to build, with three times [top] under the
    keyword [k].  Whenever the SDK returns a vector query, exactly one search
    is issued: it carries that vector query, the result limit [top], the
    semantic query type, and the semantic configuration name the caller
    gave, or [semantic-config] when the caller gave none.  The outcome of
    that search, rows or exception, is the outcome of the call.  What the
    index is asked for as [k] is not stated. *)
Theorem semantic_search_request
    (svc : Services) (query : string) (top : option Z)
    (vector_field semantic_config : option string) (w : World) :
  exists query_vector w1,
    generate_embeddings svc (PyStr query) w = (Ok query_vector, w1)
    /\ let limit := default 5%Z top in
       forall vector_query,
         vectorized_query_k svc query_vector [default "contentVector" vector_field]
           (limit * 3)%Z = Ok vector_query ->
         let request :=
           {| search_text := PyStr query;
              vector_queries := [QueryObject vector_query];
              select := selected_fields;
              top := limit;
              query_type := Some SEMANTIC;
              semantic_configuration_name :=
                Some (default "semantic-config" semantic_config) |} in
         semantic_search svc (PyStr query) top vector_field semantic_config w
         = (search_client_search svc (trace w1) request, log (SearchCall request) w1).
Proof.
  destruct (get_embeddings_returns svc query w) as [v Hv].
  change (get_embeddings svc) with (generate_embeddings svc) in Hv.
  destruct (generate_embeddings svc (PyStr query) w) as [r w1] eqn:Hrun.
  simpl in Hv. subst r.
  exists v, w1. split; [reflexivity|].
  intros limit vector_query Hbuilt request.
  unfold semantic_search, bind at 1. rewrite Hrun.
  unfold bind, lift. fold limit. rewrite Hbuilt. reflexivity.
Qed.

Lemma semantic_search_request_witness :
  exists query_vector w1,
    generate_embeddings ada_provider (PyStr "cloud") empty_world = (Ok query_vector, w1)
    /\ semantic_search ada_provider (PyStr "cloud") (Some 5%Z) None (Some "reranker") empty_world
       = (Ok [],
          log (SearchCall
                 {| search_text := PyStr "cloud";
                    vector_queries :=
                      [QueryObject {| vector := query_vector; fields := ["contentVector"];
                                      k_nearest_neighbors := None |}];
                    select := selected_fields;
                    top := 5;
                    query_type := Some SEMANTIC;
                    semantic_configuration_name := Some "reranker" |}) w1).
Proof.
  destruct (semantic_search_request ada_provider "cloud" (Some 5%Z) None (Some "reranker")
              empty_world) as (v & w1 & Hrun & Hsearch).
  exists v, w1. split; [exact Hrun|].
  apply (Hsearch {| vector := v; fields := ["contentVector"]; k_nearest_neighbors := None |}).
  reflexivity.
Defined.

(** ** The web handler *)

Lemma eq_str_false (v : pyval) (s : string) : v <> PyStr s -> eq_str v s = false.
Proof.
  intros H. destruct v as [| | | |x|]; try reflexivity.
  simpl. apply String.eqb_neq. congruence.
Qed.

(** C8, as stated, fails on a request whose strategy is unknown and whose
    [top] does not convert: [top] is converted first, inside the [try], and
    the answer is status 500 with the text of [int]'s exception, not the
    validation error. *)
Lemma invalid_strategy_bad_top_counterexample :
  bad_top_request !! "search_type" = Some (PyStr "fuzzy")
  /\ search ada_provider bad_top_request empty_world
     = (Ok {| body := ErrorBody "invalid literal for int() with base 10: 'ten'";
              status := 500 |},
        empty_world).
Proof. split; reflexivity. Qed.

(** C8, as amended.  A request whose [search_type] is present and is none of
    [vector], [hybrid], [semantic] is answered with an error and leaves the
    world as it was: no embedding is requested and no search is issued.  The
    error is [Invalid search type] with status 400 when [top] converts to an
    integer and the query is not empty; it is status 500 with the text of the
    conversion error when [top] does not convert, and [Query is required]
    with status 400 when [top] converts and the query is empty or missing,
    these two checks coming before the strategy is looked at. *)
Theorem invalid_strategy_rejected
    (svc : Services) (data : pydict) (strategy : pyval) (w : World) :
  data !! "search_type" = Some strategy ->
  strategy <> PyStr "vector" ->
  strategy <> PyStr "hybrid" ->
  strategy <> PyStr "semantic" ->
  let query := dict_get_default data "query" (PyStr "") in
  let converted := py_int (dict_get_default data "top" (PyInt 5)) in
  (forall n, converted = Ok n -> truthy query = true ->
     search svc data w
     = (Ok {| body := ErrorBody "Invalid search type"; status := 400 |}, w))
  /\ (forall e, converted = Raise e ->
        search svc data w = (Ok {| body := ErrorBody (exn_str e); status := 500 |}, w))
  /\ (forall n, converted = Ok n -> truthy query = false ->
        search svc data w
        = (Ok {| body := ErrorBody "Query is required"; status := 400 |}, w)).
Proof.
  intros Hstrategy Hv Hh Hs query converted. subst query converted.
  unfold search, try_except, bind, lift.
  assert (dict_get_default data "search_type" (PyStr "vector") = strategy) as ->.
  { unfold dict_get_default. rewrite Hstrategy. reflexivity. }
  rewrite (eq_str_false _ _ Hv), (eq_str_false _ _ Hh), (eq_str_false _ _ Hs).
  split; [|split].
  - intros n -> ->. reflexivity.
  - intros e ->. reflexivity.
  - intros n -> ->. reflexivity.
Qed.

Lemma invalid_strategy_rejected_witness :
  search ada_provider fuzzy_request empty_world
  = (Ok {| body := ErrorBody "Invalid search type"; status := 400 |}, empty_world).
Proof.
  refine (proj1 (invalid_strategy_rejected ada_provider fuzzy_request (PyStr "fuzzy")
                   empty_world _ _ _ _) 5%Z _ _).
  - reflexivity.
  - discriminate.
  - discriminate.
  - discriminate.
  - reflexivity.
  - reflexivity.
Defined.

(** ** Batch upload *)

Lemma extend_nil (w : World) : extend w [] = w.
Proof. destruct w. unfold extend. simpl. rewrite app_nil_r. reflexivity. Qed.

Lemma extend_extend (w : World) (a b : list Event) :
  extend (extend w a) b = extend w (a ++ b).
Proof. unfold extend. simpl. rewrite app_assoc. reflexivity. Qed.

Lemma log_extend (e : Event) (w : World) : log e w = extend w [e].
Proof. reflexivity. Qed.

(** *** The index arithmetic of the loop *)

Lemma ceil_div_bounds (n : nat) :
  (n <= 100 * ((n + 99) / 100) < n + 100)%nat.
Proof.
  pose proof (Nat.div_mod_eq (n + 99) 100) as H.
  pose proof (Nat.mod_upper_bound (n + 99) 100) as Hm.
  lia.
Qed.

Lemma range_loop_S (fuel i stop step : nat) :
  range_loop (S fuel) i stop step
  = if (i <? stop)%nat then i :: range_loop fuel (i + step) stop step else [].
Proof. reflexivity. Qed.

Lemma range_loop_seq (n fuel j : nat) :
  ((n + 99) / 100 - j <= fuel)%nat ->
  range_loop fuel (100 * j) n 100
  = map (fun q => 100 * q)%nat (seq j ((n + 99) / 100 - j)).
Proof.
  pose proof (ceil_div_bounds n) as Hc.
  revert j. induction fuel as [|fuel IH]; intros j Hfuel.
  - replace ((n + 99) / 100 - j)%nat with 0%nat by lia. reflexivity.
  - rewrite range_loop_S.
    destruct (Nat.ltb_spec (100 * j) n) as [Hlt|Hge].
    + replace ((n + 99) / 100 - j)%nat with (S ((n + 99) / 100 - S j)) by lia.
      cbn [seq map]. f_equal.
      replace (100 * j + 100)%nat with (100 * S j)%nat by lia.
      apply IH. lia.
    + replace ((n + 99) / 100 - j)%nat with 0%nat by lia. reflexivity.
Qed.

(** [range(0, n, 100)] is [0, 100, ...], one index per started hundred. *)
Lemma range_batches (n : nat) :
  range 0 n batch_size = map (fun q => 100 * q)%nat (seq 0 ((n + 99) / 100)).
Proof.
  pose proof (ceil_div_bounds n) as Hc.
  unfold range, batch_size.
  change 0%nat with (100 * 0)%nat at 1.
  rewrite range_loop_seq by lia.
  rewrite Nat.sub_0_r. reflexivity.
Qed.

(** *** The batches partition the documents *)

Section Batches.
Variable documents : list pydict.

Lemma batches_of_seq :
  batches_of documents
  = map (batch_at documents) (seq 0 ((length documents + 99) / 100)).
Proof.
  unfold batches_of. rewrite range_batches, map_map. reflexivity.
Qed.

Lemma batch_at_length (q : nat) :
  length (batch_at documents q) = Nat.min 100 (length documents - 100 * q).
Proof.
  unfold batch_at, slice. rewrite length_take, length_drop. lia.
Qed.

Lemma concat_batch_at (count : nat) :
  concat (map (batch_at documents) (seq 0 count)) = firstn (100 * count) documents.
Proof.
  induction count as [|count IH].
  - reflexivity.
  - rewrite seq_S, map_app, concat_app, IH. cbn [map concat Nat.add]. rewrite app_nil_r.
    unfold batch_at, slice. rewrite take_take_drop.
    destruct (Nat.le_gt_cases (100 * count + 100) (length documents)) as [Hle|Hgt].
    + f_equal. lia.
    + rewrite (take_ge documents (100 * S count)) by lia.
      apply take_ge. lia.
Qed.

Lemma batches_concat : concat (batches_of documents) = documents.
Proof.
  rewrite batches_of_seq, concat_batch_at.
  apply take_ge. pose proof (ceil_div_bounds (length documents)). lia.
Qed.

Lemma batches_count :
  length (batches_of documents) = ((length documents + 99) / 100)%nat.
Proof. rewrite batches_of_seq, length_map, length_seq. reflexivity. Qed.

Lemma lookup_map {A B} (f : A -> B) (l : list A) (i : nat) :
  map f l !! i = option_map f (l !! i).
Proof.
  revert i. induction l as [|x l IH]; intros [|i]; simpl; try reflexivity. apply IH.
Qed.

(** Every batch but the last is full; the last holds what is left. *)
Lemma batches_sizes (j : nat) (batch : list pydict) :
  batches_of documents !! j = Some batch ->
  length batch = if (S j <? length (batches_of documents))%nat
                 then 100%nat else (length documents - 100 * j)%nat.
Proof.
  rewrite batches_count, batches_of_seq, lookup_map.
  pose proof (ceil_div_bounds (length documents)) as Hc.
  destruct (seq 0 ((length documents + 99) / 100) !! j) as [q|] eqn:Hq; [|discriminate].
  apply lookup_seq in Hq as [-> Hj]. cbn [option_map]. intros Heq.
  assert (batch_at documents (0 + j) = batch) as <- by congruence.
  rewrite batch_at_length.
  destruct (Nat.ltb_spec (S j) ((length documents + 99) / 100)); lia.
Qed.

End Batches.

(** *** The loop attempts and reports every batch *)

Lemma log_errors_run (rs : list IndexingResult) (w : World) :
  log_errors rs w = (Ok tt, extend w (error_lines rs)).
Proof.
  revert w. induction rs as [|r rs IH]; intros w.
  - cbn. rewrite extend_nil. reflexivity.
  - unfold log_errors in *. cbn [for_each error_lines flat_map]. unfold bind at 1.
    destruct (succeeded r); cbn [negb].
    + cbn [ret app]. apply IH.
    + unfold print at 1. rewrite IH, log_extend, extend_extend. reflexivity.
Qed.

Lemma upload_batch_run (svc : Services) (documents : list pydict) (i : nat) (w : World) :
  exists events,
    upload_batch svc documents i w = (Ok tt, extend w events)
    /\ attempt (i / 100 + 1)
         (slice documents i (Nat.min (i + batch_size) (length documents))) events.
Proof.
  unfold upload_batch, try_except, bind, call, batch_number.
  change (i / batch_size + 1)%nat with (i / 100 + 1)%nat.
  set (batch := slice documents i (Nat.min (i + batch_size) (length documents))).
  destruct (search_client_index_documents svc (trace w) (map upload_action batch))
    as [result|e].
  - destruct (results result) as [|r rs] eqn:Hrs.
    + eexists. split; [|apply attempt_no_results].
      unfold print. rewrite !log_extend, extend_extend. reflexivity.
    + eexists. split; [|apply (attempt_results _ _ (r :: rs)); discriminate].
      unfold print at 1. rewrite log_errors_run, !log_extend, !extend_extend.
      reflexivity.
  - eexists. split; [|apply (attempt_raised _ _ e)].
    unfold print. rewrite !log_extend, extend_extend. reflexivity.
Qed.

Lemma upload_loop_run (svc : Services) (documents : list pydict)
    (starts : list nat) (number : nat) (w : World) :
  (forall k i, starts !! k = Some i -> (i / 100 + 1 = number + k)%nat) ->
  exists events,
    for_each starts (upload_batch svc documents) w = (Ok tt, extend w events)
    /\ attempts number
         (map (fun i => slice documents i (Nat.min (i + batch_size) (length documents)))
            starts)
         events.
Proof.
  revert number w. induction starts as [|i starts IH]; intros number w Hnum.
  - exists []. rewrite extend_nil. split; [reflexivity | constructor].
  - destruct (upload_batch_run svc documents i w) as (events & Hrun & Hattempt).
    destruct (IH (S number) (extend w events)) as (later & Hloop & Hattempts).
    { intros k j Hk. rewrite (Hnum (S k) j Hk). lia. }
    exists (events ++ later). split.
    + cbn [for_each]. unfold bind. rewrite Hrun, Hloop, extend_extend. reflexivity.
    + cbn [map]. constructor; [|exact Hattempts].
      rewrite <- (Nat.add_0_r number), <- (Hnum 0%nat i eq_refl). exact Hattempt.
Qed.

Lemma submitted_app (a b : list Event) : submitted (a ++ b) = submitted a ++ submitted b.
Proof. apply omap_app. Qed.

Lemma submitted_error_lines (rs : list IndexingResult) : submitted (error_lines rs) = [].
Proof.
  induction rs as [|r rs IH]; [reflexivity|].
  cbn [error_lines flat_map]. rewrite submitted_app. fold (error_lines rs). rewrite IH.
  destruct (succeeded r); reflexivity.
Qed.

Lemma document_upload_action (batch : list pydict) :
  map document (map upload_action batch) = batch.
Proof. rewrite map_map. apply map_id. Qed.

Lemma attempt_submitted (number : nat) (batch : list pydict) (events : list Event) :
  attempt number batch events -> submitted events = [batch].
Proof.
  intros [e | | rs Hrs].
  - cbn. rewrite document_upload_action. reflexivity.
  - cbn. rewrite document_upload_action. reflexivity.
  - rewrite submitted_app, submitted_error_lines. cbn.
    rewrite document_upload_action. reflexivity.
Qed.

Lemma attempts_submitted (number : nat) (batches : list (list pydict)) (events : list Event) :
  attempts number batches events -> submitted events = batches.
Proof.
  induction 1 as [|number batch rest events later Hattempt _ IH]; [reflexivity|].
  rewrite submitted_app, (attempt_submitted _ _ _ Hattempt), IH. reflexivity.
Qed.

Lemma range_numbers (n k i : nat) :
  range 0 n batch_size !! k = Some i -> (i / 100 + 1 = 1 + k)%nat.
Proof.
  rewrite range_batches, lookup_map.
  destruct (seq 0 ((n + 99) / 100) !! k) as [q|] eqn:Hq; [|discriminate].
  apply lookup_seq in Hq as [-> _]. cbn [option_map]. intros Heq.
  assert ((100 * (0 + k))%nat = i) as <- by congruence.
  rewrite Nat.add_0_l, (Nat.mul_comm 100 k), Nat.div_mul by discriminate. lia.
Qed.

(** C4.  The documents of the file are cut, in order, into
    [ceil(n/100)] batches, each of 100 but for the last, which holds the
    rest.  Every batch is submitted to the index and reported, one after the
    other, whatever the index answered to the batches before it: an
    exception is one of the three reports of a batch and the loop goes on.
    For 250 documents the batches hold 100, 100 and 50. *)
Theorem upload_attempts_every_batch
    (svc : Services) (search_index_name documents_file : string)
    (documents : list pydict) (w : World) :
  files w !! documents_file = Some documents ->
  exists batches events,
    upload_documents svc search_index_name documents_file w
    = (Ok tt,
       extend w
         ([Print ("Uploading " +:+ pretty (length documents) +:+ " documents to index '"
                    +:+ search_index_name +:+ "'...")]
            ++ events
            ++ [Print ("Document upload completed for index '"
                         +:+ search_index_name +:+ "'")]))
    /\ attempts 1 batches events
    /\ submitted events = batches
    /\ concat batches = documents
    /\ length batches = ((length documents + 99) / 100)%nat
    /\ (forall j batch,
          batches !! j = Some batch ->
          length batch = if (S j <? length batches)%nat then 100%nat
                         else (length documents - 100 * j)%nat)
    /\ (length documents = 250%nat -> map length batches = [100; 100; 50]%nat).
Proof.
  intros Hfile.
  destruct (upload_loop_run svc documents (range 0 (length documents) batch_size) 1
              (extend w [Print ("Uploading " +:+ pretty (length documents)
                                  +:+ " documents to index '"
                                  +:+ search_index_name +:+ "'...")]))
    as (events & Hloop & Hattempts).
  { intros k i. apply range_numbers. }
  exists (batches_of documents), events.
  split; [|split; [exact Hattempts|]].
  { unfold upload_documents, bind, json_load. rewrite Hfile.
    unfold print at 1. rewrite log_extend, Hloop.
    unfold print. rewrite log_extend, !extend_extend. reflexivity. }
  split; [exact (attempts_submitted _ _ _ Hattempts)|].
  split; [apply batches_concat|].
  split; [apply batches_count|].
  split; [apply batches_sizes|].
  intros Hn.
  pose proof (batches_count documents) as Hcount.
  pose proof (batches_sizes documents) as Hsizes.
  rewrite Hn in Hcount, Hsizes.
  change ((250 + 99) / 100)%nat with 3%nat in Hcount.
  destruct (batches_of documents) as [|b0 [|b1 [|b2 [|b3 rest]]]]; try discriminate.
  cbn [map].
  rewrite (Hsizes 0%nat b0 eq_refl), (Hsizes 1%nat b1 eq_refl), (Hsizes 2%nat b2 eq_refl).
  reflexivity.
Qed.

Lemma upload_attempts_every_batch_witness :
  exists batches events,
    upload_documents flaky_index "lab-index" "documents_with_embeddings.json" upload_world
    = (Ok tt,
       extend upload_world
         ([Print ("Uploading " +:+ pretty (length (repeat sample_document 250))
                    +:+ " documents to index '" +:+ "lab-index" +:+ "'...")]
            ++ events
            ++ [Print ("Document upload completed for index '" +:+ "lab-index" +:+ "'")]))
    /\ attempts 1 batches events
    /\ submitted events = batches
    /\ concat batches = repeat sample_document 250
    /\ length batches = ((length (repeat sample_document 250) + 99) / 100)%nat
    /\ (forall j batch,
          batches !! j = Some batch ->
          length batch = if (S j <? length batches)%nat then 100%nat
                         else (length (repeat sample_document 250) - 100 * j)%nat)
    /\ (length (repeat sample_document 250) = 250%nat ->
        map length batches = [100; 100; 50]%nat).
Proof.
  apply (upload_attempts_every_batch flaky_index "lab-index"
           "documents_with_embeddings.json" (repeat sample_document 250) upload_world).
  reflexivity.
Defined.

(** The run of the specification's example: the second upload fails, the
    third batch is submitted all the same, and each batch has its report. *)
Example upload_with_failing_second_batch :
  let events :=
    trace (snd (upload_documents flaky_index "lab-index"
                  "documents_with_embeddings.json" upload_world)) in
  map length (submitted events) = [100; 100; 50]%nat
  /\ omap (fun e => match e with Print line => Some line | _ => None end) events
     = ["Uploading 250 documents to index 'lab-index'...";
        "Batch 1: 100/100 documents indexed successfully";
        "Error uploading batch 2: connection reset";
        "Batch 3: 50/50 documents indexed successfully";
        "Document upload completed for index 'lab-index'"].
Proof. vm_compute. split; reflexivity. Qed.

(** ** Offline embedding generation *)

Section OfflineFacts.
Variable svc : Services.

Lemma get_embeddings_text (s : string) (w : World) :
  exists v events, get_embeddings svc (PyStr s) w = (Ok v, extend w events).
Proof.
  destruct (PyStr.all_space s) eqn:H.
  - exists zero_vector, []. rewrite extend_nil. apply get_embeddings_blank, H.
  - rewrite get_embeddings_run by exact H. cbn zeta.
    destruct (embeddings_create _ _ _ _) as [response|e];
      [destruct (data response) as [|first rest]|];
      eexists; eexists; rewrite !log_extend, ?extend_extend; reflexivity.
Qed.

Lemma get_embeddings_field (doc : pydict) (field : string) (w : World) :
  text_or_absent doc field ->
  exists v events,
    get_embeddings svc (dict_get_default doc field (PyStr "")) w = (Ok v, extend w events).
Proof.
  unfold dict_get_default. intros [-> | [-> | [s ->]]]; cbn [default].
  - apply get_embeddings_text.
  - exists zero_vector, []. rewrite extend_nil. reflexivity.
  - apply get_embeddings_text.
Qed.

Lemma embed_document_run (i : nat) (doc : pydict) (w : World) :
  text_or_absent doc "title" ->
  text_or_absent doc "content" ->
  exists doc' events,
    embed_document svc i doc w = (Ok doc', extend w events) /\ with_vectors doc doc'.
Proof.
  intros Htitle Hcontent. unfold embed_document.
  set (pace := if (0 <? i)%nat && (i mod 10 =? 0)%nat
               then bind (print ("Processed " +:+ pretty i +:+ " documents..."))
                      (fun _ => sleep 500)
               else ret tt).
  assert (exists events, pace w = (Ok tt, extend w events)) as [paced Hpace].
  { unfold pace. destruct ((0 <? i)%nat && (i mod 10 =? 0)%nat).
    - eexists. unfold bind, print, sleep. rewrite !log_extend, extend_extend. reflexivity.
    - exists []. rewrite extend_nil. reflexivity. }
  destruct (get_embeddings_field doc "title" (extend w paced) Htitle)
    as (tv & titled & Htv).
  destruct (get_embeddings_field doc "content" (extend (extend w paced) titled) Hcontent)
    as (cv & contented & Hcv).
  eexists. eexists. split.
  - unfold bind at 1. rewrite Hpace. unfold bind at 1. rewrite Htv.
    unfold bind. rewrite Hcv. unfold ret. rewrite !extend_extend. reflexivity.
  - exists tv, cv. reflexivity.
Qed.

Lemma embed_documents_run (documents : list pydict) (i : nat) (w : World) :
  Forall (fun doc => text_or_absent doc "title" /\ text_or_absent doc "content") documents ->
  exists documents' events,
    embed_documents svc i documents w = (Ok documents', extend w events)
    /\ Forall2 with_vectors documents documents'.
Proof.
  intros Hdocs. revert i w.
  induction Hdocs as [|doc documents [Htitle Hcontent] _ IH]; intros i w.
  - exists [], []. rewrite extend_nil. split; [reflexivity | constructor].
  - destruct (embed_document_run i doc w Htitle Hcontent) as (doc' & first & Hdoc & Hvec).
    destruct (IH (S i) (extend w first)) as (rest' & later & Hrest & Hvecs).
    exists (doc' :: rest'), (first ++ later). split.
    + cbn [embed_documents]. unfold bind at 1. rewrite Hdoc.
      unfold bind. rewrite Hrest, extend_extend. reflexivity.
    + constructor; assumption.
Qed.

End OfflineFacts.

Lemma with_vectors_frame (doc doc' : pydict) :
  with_vectors doc doc' ->
  (exists v, doc' !! "titleVector" = Some (PyList v))
  /\ (exists v, doc' !! "contentVector" = Some (PyList v))
  /\ (forall field, field <> "titleVector" -> field <> "contentVector" ->
                    doc' !! field = doc !! field).
Proof.
  intros (tv & cv & ->). split; [|split].
  - exists tv. rewrite lookup_insert_ne by discriminate. apply lookup_insert_eq.
  - exists cv. apply lookup_insert_eq.
  - intros field Ht Hc. rewrite !lookup_insert_ne by congruence. reflexivity.
Qed.

Lemma string_length_append (a b : string) :
  String.length (a +:+ b) = (String.length a + String.length b)%nat.
Proof. induction a as [|c a IH]; simpl; [reflexivity | rewrite IH; reflexivity]. Qed.

Lemma string_app_nil_r (a : string) : a +:+ "" = a.
Proof.
  induction a as [|x a IH]; [reflexivity|].
  change (String x (a +:+ "") = String x a). rewrite IH. reflexivity.
Qed.

(** The name of the output file, for an input name that ends in [.json]
    and has no [.json] before that. *)
Lemma prefix_no_straddle (stem : string) :
  stem <> "" ->
  String.prefix ".json" stem = false ->
  String.prefix ".json" (stem +:+ ".json") = false.
Proof.
  intros Hne Hprefix.
  destruct stem as [|c1 [|c2 [|c3 [|c4 [|c5 stem]]]]]; [congruence| | | | |];
    unfold String.app in *; cbv [String.prefix String.append] in Hprefix |- *;
    repeat match goal with
           | |- context [ascii_dec ?a ?b] =>
               destruct (ascii_dec a b); [subst|]; try reflexivity
           | H : context [ascii_dec ?a ?b] |- _ =>
               destruct (ascii_dec a b); [subst|]; try discriminate; try reflexivity
           end;
    try congruence.
  destruct stem; discriminate.
Qed.

Lemma replace_fuel_stem (new stem : string) (fuel : nat) :
  PyStr.contains ".json" stem = false ->
  (String.length stem + 1 <= fuel)%nat ->
  PyStr.replace_fuel fuel ".json" new (stem +:+ ".json") = stem +:+ new.
Proof.
  revert fuel. induction stem as [|c stem IH]; intros fuel Hstem Hfuel.
  - destruct fuel as [|fuel]; [cbn in Hfuel; lia|].
    change (new +:+ PyStr.replace_fuel fuel ".json" new "" = new).
    replace (PyStr.replace_fuel fuel ".json" new "") with "" by (destruct fuel; reflexivity).
    apply string_app_nil_r.
  - destruct fuel as [|fuel]; [cbn in Hfuel; lia|].
    cbn [PyStr.contains] in Hstem. apply orb_false_iff in Hstem as [Hprefix Hrest].
    change (String c stem +:+ ".json") with (String c (stem +:+ ".json")).
    cbn [PyStr.replace_fuel].
    change (String c (stem +:+ ".json")) with (String c stem +:+ ".json").
    rewrite (prefix_no_straddle (String c stem)) by (congruence || exact Hprefix).
    change (String c stem +:+ new) with (String c (stem +:+ new)).
    f_equal. apply IH; [exact Hrest|]. cbn [String.length] in Hfuel. lia.
Qed.

Lemma output_name_stem (stem : string) :
  PyStr.contains ".json" stem = false ->
  output_name (stem +:+ ".json") = stem +:+ "_with_embeddings.json".
Proof.
  intros Hstem. unfold output_name, PyStr.replace.
  apply replace_fuel_stem; [exact Hstem|].
  rewrite string_length_append. cbn [String.length]. lia.
Qed.

(** C9, as stated, fails on a document that already has a [titleVector]:
    the assignment replaces it, so a field the document came with is not
    left as it was, and the field is not new. *)
Lemma process_documents_overwrites_counterexample :
  stale_document !! "titleVector" = Some (PyStr "stale")
  /\ (exists doc',
        fst (process_documents ada_provider "documents.json" stale_world) = Ok [doc']
        /\ doc' !! "titleVector" = Some (PyList (repeat 1%float 1536))
        /\ doc' !! "titleVector" <> stale_document !! "titleVector").
Proof.
  split; [reflexivity|].
  exists (<["contentVector" := PyList zero_vector]>
            (<["titleVector" := PyList (repeat 1%float 1536)]> stale_document)).
  split; [reflexivity|].
  split; [reflexivity|].
  rewrite lookup_insert_ne by discriminate. rewrite lookup_insert_eq. discriminate.
Qed.

(** C9, as amended.  On a file named [stem.json], with no [.json] inside
    [stem], that holds an array of documents whose [title] and [content] are
    text (or missing, or [null]), the step returns the documents in the same
    number and order; each has [titleVector] and [contentVector] set to a
    vector, added or replaced, and every other field as it was.  The array
    is written to the sibling file [stem_with_embeddings.json], the other
    files being left alone. *)
Theorem process_documents_frame
    (svc : Services) (stem : string) (documents : list pydict) (w : World) :
  PyStr.contains ".json" stem = false ->
  files w !! (stem +:+ ".json") = Some documents ->
  Forall (fun doc => text_or_absent doc "title" /\ text_or_absent doc "content") documents ->
  exists documents' events,
    process_documents svc (stem +:+ ".json") w
    = (Ok documents',
       {| trace := trace w ++ events;
          files := <[stem +:+ "_with_embeddings.json" := documents']> (files w) |})
    /\ length documents' = length documents
    /\ (forall i doc,
          documents !! i = Some doc ->
          exists doc',
            documents' !! i = Some doc'
            /\ (exists v, doc' !! "titleVector" = Some (PyList v))
            /\ (exists v, doc' !! "contentVector" = Some (PyList v))
            /\ (forall field, field <> "titleVector" -> field <> "contentVector" ->
                              doc' !! field = doc !! field)).
Proof.
  intros Hstem Hfile Hdocs.
  destruct (embed_documents_run svc documents 0
              (extend w [Print ("Processing " +:+ pretty (length documents)
                                  +:+ " documents...")]) Hdocs)
    as (documents' & events & Hrun & Hvecs).
  exists documents'. eexists. split; [|split].
  - unfold process_documents, bind, json_load. rewrite Hfile.
    unfold print at 1. rewrite log_extend, Hrun.
    rewrite (output_name_stem stem Hstem).
    unfold print, json_dump, ret, log, extend. cbn [trace files].
    rewrite <- !app_assoc. reflexivity.
  - symmetry. exact (Forall2_length _ _ _ Hvecs).
  - intros i doc Hi.
    destruct (Forall2_lookup_l _ _ _ _ _ Hvecs Hi) as (doc' & Hi' & Hvec).
    exists doc'. split; [exact Hi' | apply with_vectors_frame, Hvec].
Qed.

Lemma sample_document_text :
  text_or_absent sample_document "title" /\ text_or_absent sample_document "content".
Proof.
  split.
  - right. right. exists "Cloud". vm_compute. reflexivity.
  - left. vm_compute. reflexivity.
Defined.

Lemma process_documents_frame_witness :
  exists documents' events,
    process_documents ada_provider "documents.json" offline_world
    = (Ok documents',
       {| trace := trace offline_world ++ events;
          files := <["documents_with_embeddings.json" := documents']> (files offline_world) |})
    /\ length documents' = length [sample_document; sample_document]
    /\ (forall i doc,
          [sample_document; sample_document] !! i = Some doc ->
          exists doc',
            documents' !! i = Some doc'
            /\ (exists v, doc' !! "titleVector" = Some (PyList v))
            /\ (exists v, doc' !! "contentVector" = Some (PyList v))
            /\ (forall field, field <> "titleVector" -> field <> "contentVector" ->
                              doc' !! field = doc !! field)).
Proof.
  apply (process_documents_frame ada_provider "documents"
           [sample_document; sample_document] offline_world).
  - reflexivity.
  - vm_compute. reflexivity.
  - constructor; [exact sample_document_text|].
    constructor; [exact sample_document_text | constructor].
Defined.

(** The script's own file: [documents.json] goes to
    [documents_with_embeddings.json]. *)
Example output_name_documents :
  output_name "documents.json" = "documents_with_embeddings.json".
Proof. reflexivity. Qed.

(* ===================================================================== *)
(** * Further properties of the code *)
(* ===================================================================== *)

(** ** The adapter on answers and on values that are not text *)

(** X1.  When the provider answers with at least one embedding, the adapter
    returns the first one as it is; the only event is the call, on the
    truncated text, and no diagnostic is printed. *)
Theorem embed_returns_first_embedding
    (svc : Services) (t : string) (w : World)
    (response : CreateEmbeddingResponse) (first : Embedding) (rest : list Embedding) :
  PyStr.all_space t = false ->
  embeddings_create svc (trace w) (truncate t) (azure_openai_embedding_deployment svc)
  = Ok response ->
  data response = first :: rest ->
  let called := log (EmbeddingsCreate (truncate t) (azure_openai_embedding_deployment svc)) w in
  get_embeddings svc (PyStr t) w = (Ok (embedding first), called)
  /\ generate_embeddings svc (PyStr t) w = (Ok (embedding first), called).
Proof.
  intros Hblank Hanswer Hdata called.
  change (generate_embeddings svc) with (get_embeddings svc).
  rewrite get_embeddings_run by exact Hblank. cbn zeta.
  rewrite Hanswer, Hdata. split; reflexivity.
Qed.

Lemma embed_returns_first_embedding_witness :
  get_embeddings short_provider (PyStr "hello") empty_world
  = (Ok [1%float; 2%float; 3%float],
     log (EmbeddingsCreate "hello" "text-embedding-ada-002") empty_world).
Proof.
  refine (proj1 (embed_returns_first_embedding short_provider "hello" empty_world
                   {| data := [ {| embedding := [1%float; 2%float; 3%float] |} ] |}
                   {| embedding := [1%float; 2%float; 3%float] |} [] _ _ _)).
  - vm_compute. reflexivity.
  - reflexivity.
  - reflexivity.
Defined.

Lemma get_embeddings_non_text (svc : Services) (v : pyval) (w : World) :
  (forall s, v <> PyStr s) ->
  get_embeddings svc v w
  = (if truthy v
     then Raise (Exn "AttributeError" ("'" +:+ type_name v +:+ "' object has no attribute 'strip'"))
     else Ok zero_vector, w).
Proof.
  intros Hv.
  destruct v as [|b|z|f|s|l]; try (exfalso; exact (Hv s eq_refl));
    unfold get_embeddings;
    match goal with |- context [truthy ?x] => destruct (truthy x) end;
    reflexivity.
Qed.

(** X2.  A value that is not a string never reaches the provider: a falsy
    one ([None], [False], [0], [0.0], the empty list) gives the zero vector,
    a truthy one raises [AttributeError], the guard calling [strip] on it
    outside the [try]. *)
Theorem embed_non_text (svc : Services) (v : pyval) (w : World) :
  (forall s, v <> PyStr s) ->
  exists outcome,
    get_embeddings svc v w = (outcome, w)
    /\ generate_embeddings svc v w = (outcome, w)
    /\ (truthy v = false -> outcome = Ok zero_vector)
    /\ (truthy v = true ->
        exists e, outcome = Raise e /\ exn_class e = "AttributeError").
Proof.
  intros Hv. eexists.
  change (generate_embeddings svc) with (get_embeddings svc).
  split; [apply get_embeddings_non_text, Hv|].
  split; [apply get_embeddings_non_text, Hv|].
  destruct (truthy v); split; intros H; try discriminate; [|reflexivity].
  eexists. split; reflexivity.
Qed.

Lemma embed_non_text_witness :
  exists e,
    get_embeddings ada_provider (PyInt 7) empty_world = (Raise e, empty_world)
    /\ exn_class e = "AttributeError".
Proof.
  destruct (embed_non_text ada_provider (PyInt 7) empty_world) as (outcome & Hrun & _ & _ & He).
  - intros s. discriminate.
  - destruct (He eq_refl) as (e & -> & Hclass). exists e. split; assumption.
Defined.

(** ** The vector and hybrid strategies *)

(** X3.  A vector search on a text query embeds the query and has the SDK
    build a vector query on [contentVector], unless another field is named,
    with [top] (5 when left out) under the keyword [k].  When the SDK refuses,
    its exception is the outcome and nothing is searched.  When it returns a
    vector query, one search is issued with it, with no lexical text, no
    query type and no semantic configuration, the result limit being
    [top]. *)
Theorem vector_search_request
    (svc : Services) (query : string) (top : option Z) (vector_field : option string)
    (w : World) :
  exists query_vector w1,
    generate_embeddings svc (PyStr query) w = (Ok query_vector, w1)
    /\ let limit := default 5%Z top in
       let built :=
         vectorized_query_k svc query_vector [default "contentVector" vector_field] limit in
       (forall e, built = Raise e ->
          vector_search svc (PyStr query) top vector_field w = (Raise e, w1))
       /\ (forall vector_query, built = Ok vector_query ->
             let request :=
               {| search_text := PyNone;
                  vector_queries := [QueryObject vector_query];
                  select := selected_fields;
                  top := limit;
                  query_type := None;
                  semantic_configuration_name := None |} in
             vector_search svc (PyStr query) top vector_field w
             = (search_client_search svc (trace w1) request, log (SearchCall request) w1)).
Proof.
  destruct (get_embeddings_returns svc query w) as [v Hv].
  change (get_embeddings svc) with (generate_embeddings svc) in Hv.
  destruct (generate_embeddings svc (PyStr query) w) as [r w1] eqn:Hrun.
  simpl in Hv. subst r.
  exists v, w1. split; [reflexivity|].
  intros limit built. subst built.
  split; [intros e Hbuilt | intros vector_query Hbuilt request];
    unfold vector_search, bind at 1; rewrite Hrun;
    unfold bind, lift; fold limit; rewrite Hbuilt; reflexivity.
Qed.

Lemma vector_search_request_witness :
  exists query_vector w1,
    generate_embeddings ada_provider (PyStr "cloud") empty_world = (Ok query_vector, w1)
    /\ vector_search ada_provider (PyStr "cloud") (Some 2%Z) None empty_world
       = (Ok [],
          log (SearchCall
                 {| search_text := PyNone;
                    vector_queries :=
                      [QueryObject {| vector := query_vector; fields := ["contentVector"];
                                      k_nearest_neighbors := None |}];
                    select := selected_fields;
                    top := 2;
                    query_type := None;
                    semantic_configuration_name := None |}) w1).
Proof.
  destruct (vector_search_request ada_provider "cloud" (Some 2%Z) None empty_world)
    as (v & w1 & Hrun & _ & Hsearch).
  exists v, w1. split; [exact Hrun|].
  apply (Hsearch {| vector := v; fields := ["contentVector"]; k_nearest_neighbors := None |}).
  reflexivity.
Defined.

(** X4.  A hybrid search differs from a vector search in two keywords of the
    search only: the query is also sent as lexical text, with the simple
    query type.  The vector query is built by the same call of the SDK, whose
    refusal is again the outcome, without a search. *)
Theorem hybrid_search_request
    (svc : Services) (query : string) (top : option Z) (vector_field : option string)
    (w : World) :
  exists query_vector w1,
    generate_embeddings svc (PyStr query) w = (Ok query_vector, w1)
    /\ let limit := default 5%Z top in
       let built :=
         vectorized_query_k svc query_vector [default "contentVector" vector_field] limit in
       (forall e, built = Raise e ->
          hybrid_search svc (PyStr query) top vector_field w = (Raise e, w1))
       /\ (forall vector_query, built = Ok vector_query ->
             let request :=
               {| search_text := PyStr query;
                  vector_queries := [QueryObject vector_query];
                  select := selected_fields;
                  top := limit;
                  query_type := Some SIMPLE;
                  semantic_configuration_name := None |} in
             hybrid_search svc (PyStr query) top vector_field w
             = (search_client_search svc (trace w1) request, log (SearchCall request) w1)).
Proof.
  destruct (get_embeddings_returns svc query w) as [v Hv].
  change (get_embeddings svc) with (generate_embeddings svc) in Hv.
  destruct (generate_embeddings svc (PyStr query) w) as [r w1] eqn:Hrun.
  simpl in Hv. subst r.
  exists v, w1. split; [reflexivity|].
  intros limit built. subst built.
  split; [intros e Hbuilt | intros vector_query Hbuilt request];
    unfold hybrid_search, bind at 1; rewrite Hrun;
    unfold bind, lift; fold limit; rewrite Hbuilt; reflexivity.
Qed.

Lemma hybrid_search_request_witness :
  exists query_vector w1,
    generate_embeddings ada_provider (PyStr "cloud") empty_world = (Ok query_vector, w1)
    /\ hybrid_search ada_provider (PyStr "cloud") None (Some "titleVector") empty_world
       = (Ok [],
          log (SearchCall
                 {| search_text := PyStr "cloud";
                    vector_queries :=
                      [QueryObject {| vector := query_vector; fields := ["titleVector"];
                                      k_nearest_neighbors := None |}];
                    select := selected_fields;
                    top := 5;
                    query_type := Some SIMPLE;
                    semantic_configuration_name := None |}) w1).
Proof.
  destruct (hybrid_search_request ada_provider "cloud" None (Some "titleVector") empty_world)
    as (v & w1 & Hrun & _ & Hsearch).
  exists v, w1. split; [exact Hrun|].
  apply (Hsearch {| vector := v; fields := ["titleVector"]; k_nearest_neighbors := None |}).
  reflexivity.
Defined.

(** X5.  A blank query is not refused by the client: without a call to the
    provider, each strategy has the SDK build its vector query from the zero
    vector, with [top] under the keyword [k], three times [top] for the
    semantic strategy.  When the SDK returns a vector query, the strategy
    issues its one search with it, the lexical strategies sending the blank
    text along; when the SDK refuses, the strategy raises that exception and
    the world is as it was. *)
Theorem blank_query_searches_with_zero_vector
    (svc : Services) (query : string) (top : option Z) (w : World) :
  PyStr.all_space query = true ->
  let limit := default 5%Z top in
  let built k := vectorized_query_k svc zero_vector ["contentVector"] k in
  let request text kind config vector_query :=
    {| search_text := text;
       vector_queries := [QueryObject vector_query];
       select := selected_fields;
       top := limit;
       query_type := kind;
       semantic_configuration_name := config |} in
  let issued r := (search_client_search svc (trace w) r, log (SearchCall r) w) in
  (forall q, built limit = Ok q ->
     vector_search svc (PyStr query) top None w = issued (request PyNone None None q)
     /\ hybrid_search svc (PyStr query) top None w
        = issued (request (PyStr query) (Some SIMPLE) None q))
  /\ (forall q, built (limit * 3)%Z = Ok q ->
        semantic_search svc (PyStr query) top None None w
        = issued (request (PyStr query) (Some SEMANTIC) (Some "semantic-config") q))
  /\ (forall e, built limit = Raise e ->
        vector_search svc (PyStr query) top None w = (Raise e, w)
        /\ hybrid_search svc (PyStr query) top None w = (Raise e, w))
  /\ (forall e, built (limit * 3)%Z = Raise e ->
        semantic_search svc (PyStr query) top None None w = (Raise e, w)).
Proof.
  intros Hblank limit built request issued.
  pose proof (get_embeddings_blank svc query w Hblank) as Hrun.
  change (get_embeddings svc) with (generate_embeddings svc) in Hrun.
  subst built. cbn beta.
  assert (forall (A : Type) (f : list float -> M A), bind (generate_embeddings svc (PyStr query)) f w
                                                     = f zero_vector w) as Hbind.
  { intros A f. unfold bind. rewrite Hrun. reflexivity. }
  split; [|split; [|split]]; intros x Hbuilt; try split;
    unfold vector_search, hybrid_search, semantic_search; rewrite Hbind;
    unfold bind, lift; cbn [default from_option id]; fold limit; rewrite Hbuilt; reflexivity.
Qed.

Lemma blank_query_searches_with_zero_vector_witness :
  vector_search ada_provider (PyStr "  ") (Some 2%Z) None empty_world
  = (Ok [],
     log (SearchCall
            {| search_text := PyNone;
               vector_queries :=
                 [QueryObject {| vector := zero_vector; fields := ["contentVector"];
                                 k_nearest_neighbors := None |}];
               select := selected_fields;
               top := 2;
               query_type := None;
               semantic_configuration_name := None |}) empty_world).
Proof.
  refine (proj1 (proj1 (blank_query_searches_with_zero_vector ada_provider "  " (Some 2%Z)
                          empty_world _)
                   {| vector := zero_vector; fields := ["contentVector"];
                      k_nearest_neighbors := None |} _)).
  - vm_compute. reflexivity.
  - reflexivity.
Defined.

(** ** The web handler on the other paths *)

Lemma display_content_text (c : string) :
  display_content (PyStr c)
  = Ok (PyStr (if (500 <? String.length c)%nat then PyStr.slice_to 500 c +:+ "..." else c)).
Proof. reflexivity. Qed.

Lemma process_result_run (row : pydict) (w : World) :
  has_text_content row ->
  exists shown, process_result row w = (Ok shown, w) /\ displayed row shown.
Proof.
  intros Hrow.
  assert (exists c, dict_get_default row "content" (PyStr "") = PyStr c) as [c Hc].
  { unfold dict_get_default. destruct Hrow as [-> | [c ->]]; eauto. }
  eexists. split.
  - unfold process_result, bind, lift. rewrite Hc, display_content_text. reflexivity.
  - split; [|split].
    + rewrite !dom_insert_L, dom_empty_L. unfold selected_fields. cbn [list_to_set].
      set_solver.
    + intros field Hfield.
      repeat (apply elem_of_cons in Hfield as [-> | Hfield];
              [rewrite ?lookup_insert_eq; repeat (rewrite lookup_insert_ne by discriminate);
               rewrite ?lookup_insert_eq; reflexivity|]).
      inversion Hfield.
    + exists c. split; [exact Hc|].
      repeat (rewrite lookup_insert_ne by discriminate). apply lookup_insert_eq.
Qed.

Lemma map_process_result_run (rows : list pydict) (w : World) :
  Forall has_text_content rows ->
  exists shown, map_m process_result rows w = (Ok shown, w) /\ Forall2 displayed rows shown.
Proof.
  induction 1 as [|row rows Hrow _ (shown & Hrun & Hshown)].
  - exists []. split; [reflexivity | constructor].
  - destruct (process_result_run row w Hrow) as (r & Hr & Hd).
    exists (r :: shown). split; [|constructor; assumption].
    cbn [map_m]. unfold bind. rewrite Hr, Hrun. reflexivity.
Qed.

Lemma respond_run (query search_type : pyval) (rows : list pydict) (w : World) :
  Forall has_text_content rows ->
  exists shown,
    respond query search_type rows w
    = (Ok {| body := ResultsBody shown (length rows) query search_type; status := 200 |}, w)
    /\ Forall2 displayed rows shown.
Proof.
  intros Hrows. destruct (map_process_result_run rows w Hrows) as (shown & Hrun & Hshown).
  exists shown. split; [|exact Hshown].
  unfold respond, bind. rewrite Hrun. unfold ret.
  rewrite (Forall2_length _ _ _ Hshown). reflexivity.
Qed.

(** The handler past its checks: the strategy runs, then the rows are
    shown. *)
Lemma search_dispatch (svc : Services) (data : pydict) (n : Z)
    (run : M (list pydict)) (w : World) :
  let query := dict_get_default data "query" (PyStr "") in
  let search_type := dict_get_default data "search_type" (PyStr "vector") in
  truthy query = true ->
  py_int (dict_get_default data "top" (PyInt 5)) = Ok n ->
  (search_type = PyStr "vector" /\ run = vector_search svc query (Some n) None)
  \/ (search_type = PyStr "hybrid" /\ run = hybrid_search svc query (Some n) None)
  \/ (search_type = PyStr "semantic" /\ run = semantic_search svc query (Some n) None None) ->
  search svc data w
  = try_except (bind run (respond query search_type))
      (fun e => ret {| body := ErrorBody (exn_str e); status := 500 |}) w.
Proof.
  intros query search_type Hquery Htop Hrun.
  unfold search, try_except, bind at 1, lift. rewrite Htop.
  fold query. fold search_type. rewrite Hquery. cbn [negb].
  destruct Hrun as [[-> ->] | [[-> ->] | [-> ->]]]; reflexivity.
Qed.

(** X6.  With a query, a [top] that converts and one of the three
    strategies, when the strategy returns rows whose content is text the
    answer has status 200: it counts the rows, echoes the query and the
    strategy, and shows each row, in order, as its six fields, the content
    cut at 500 characters; the events are those of the strategy. *)
Theorem search_returns_rows
    (svc : Services) (data : pydict) (n : Z) (run : M (list pydict))
    (rows : list pydict) (w w1 : World) :
  let query := dict_get_default data "query" (PyStr "") in
  let search_type := dict_get_default data "search_type" (PyStr "vector") in
  truthy query = true ->
  py_int (dict_get_default data "top" (PyInt 5)) = Ok n ->
  (search_type = PyStr "vector" /\ run = vector_search svc query (Some n) None)
  \/ (search_type = PyStr "hybrid" /\ run = hybrid_search svc query (Some n) None)
  \/ (search_type = PyStr "semantic" /\ run = semantic_search svc query (Some n) None None) ->
  run w = (Ok rows, w1) ->
  Forall has_text_content rows ->
  exists shown,
    search svc data w
    = (Ok {| body := ResultsBody shown (length rows) query search_type; status := 200 |}, w1)
    /\ Forall2 displayed rows shown.
Proof.
  intros query search_type Hquery Htop Hstrategy Hrun Hrows.
  destruct (respond_run query search_type rows w1 Hrows) as (shown & Hrespond & Hshown).
  exists shown. split; [|exact Hshown].
  rewrite (search_dispatch svc data n run w Hquery Htop Hstrategy).
  subst query search_type.
  unfold try_except, bind. rewrite Hrun, Hrespond. reflexivity.
Qed.

Lemma catalog_row_text : has_text_content catalog_row.
Proof. right. exists "Elastic capacity.". reflexivity. Defined.

Lemma search_returns_rows_witness :
  exists shown,
    search catalog hybrid_request empty_world
    = (Ok {| body := ResultsBody shown (length [catalog_row])
                       (dict_get_default hybrid_request "query" (PyStr ""))
                       (dict_get_default hybrid_request "search_type" (PyStr "vector"));
             status := 200 |},
       snd (hybrid_search catalog (PyStr "cloud") (Some 3%Z) None empty_world))
    /\ Forall2 displayed [catalog_row] shown.
Proof.
  apply (search_returns_rows catalog hybrid_request 3%Z
           (hybrid_search catalog (PyStr "cloud") (Some 3%Z) None)).
  - reflexivity.
  - reflexivity.
  - right. left. split; reflexivity.
  - reflexivity.
  - constructor; [exact catalog_row_text | constructor].
Defined.

(** X7.  When the strategy raises, be it the index that fails or the
    adapter on a query that is not text, the answer is status 500 with
    [str(e)]: a failed search is not shown as an empty result. *)
Theorem search_failure_is_500
    (svc : Services) (data : pydict) (n : Z) (run : M (list pydict))
    (e : exn) (w w1 : World) :
  let query := dict_get_default data "query" (PyStr "") in
  let search_type := dict_get_default data "search_type" (PyStr "vector") in
  truthy query = true ->
  py_int (dict_get_default data "top" (PyInt 5)) = Ok n ->
  (search_type = PyStr "vector" /\ run = vector_search svc query (Some n) None)
  \/ (search_type = PyStr "hybrid" /\ run = hybrid_search svc query (Some n) None)
  \/ (search_type = PyStr "semantic" /\ run = semantic_search svc query (Some n) None None) ->
  run w = (Raise e, w1) ->
  search svc data w = (Ok {| body := ErrorBody (exn_str e); status := 500 |}, w1).
Proof.
  intros query search_type Hquery Htop Hstrategy Hrun.
  rewrite (search_dispatch svc data n run w Hquery Htop Hstrategy).
  unfold try_except, bind. rewrite Hrun. reflexivity.
Qed.

Lemma search_failure_is_500_witness :
  search offline_index hybrid_request empty_world
  = (Ok {| body := ErrorBody "service unavailable"; status := 500 |},
     snd (hybrid_search offline_index (PyStr "cloud") (Some 3%Z) None empty_world)).
Proof.
  apply (search_failure_is_500 offline_index hybrid_request 3%Z
           (hybrid_search offline_index (PyStr "cloud") (Some 3%Z) None)
           (Exn "HttpResponseError" "service unavailable") empty_world).
  - reflexivity.
  - reflexivity.
  - right. left. split; reflexivity.
  - reflexivity.
Defined.

(** X8.  A request without a query, or with an empty one, is refused with
    status 400 and [Query is required] before anything is called, provided
    its [top] converts, the conversion coming first. *)
Theorem search_requires_query (svc : Services) (data : pydict) (n : Z) (w : World) :
  truthy (dict_get_default data "query" (PyStr "")) = false ->
  py_int (dict_get_default data "top" (PyInt 5)) = Ok n ->
  search svc data w = (Ok {| body := ErrorBody "Query is required"; status := 400 |}, w).
Proof.
  intros Hquery Htop. unfold search, try_except, bind, lift.
  rewrite Htop, Hquery. reflexivity.
Qed.

Lemma search_requires_query_witness :
  search ada_provider (<["search_type" := PyStr "semantic"]> (∅ : pydict)) empty_world
  = (Ok {| body := ErrorBody "Query is required"; status := 400 |}, empty_world).
Proof.
  apply (search_requires_query ada_provider _ 5%Z); reflexivity.
Defined.

(** X9.  A [top] that [int] refuses is answered with status 500 and the
    text of the conversion error, whatever the query and the strategy are:
    [top] is converted before either is looked at, and nothing is called. *)
Theorem search_bad_top (svc : Services) (data : pydict) (e : exn) (w : World) :
  py_int (dict_get_default data "top" (PyInt 5)) = Raise e ->
  search svc data w = (Ok {| body := ErrorBody (exn_str e); status := 500 |}, w).
Proof.
  intros Htop. unfold search, try_except, bind, lift. rewrite Htop. reflexivity.
Qed.

Lemma search_bad_top_witness :
  search ada_provider (<["top" := PyStr "ten"]> (∅ : pydict)) empty_world
  = (Ok {| body := ErrorBody "invalid literal for int() with base 10: 'ten'";
           status := 500 |},
     empty_world).
Proof.
  apply (search_bad_top ada_provider (<["top" := PyStr "ten"]> (∅ : pydict))
           (Exn "ValueError" "invalid literal for int() with base 10: 'ten'") empty_world).
  reflexivity.
Defined.

(** What [int] makes of a few values of [top]: blanks around the digits and
    single underscores between them are accepted, the separators FS to US are
    not blanks for [int], a number is cut towards zero, and the text of the
    error quotes the string as [repr] prints it. *)
Example int_accepts :
  py_int (PyStr " +1_0 ") = Ok 10%Z
  /\ py_int (PyStr "-007") = Ok (-7)%Z
  /\ py_int (PyFloat 5.5%float) = Ok 5%Z
  /\ py_int (PyBool true) = Ok 1%Z.
Proof. repeat split; reflexivity. Qed.

Example int_refuses :
  py_int (PyStr (String (ascii_of_nat 28) "5"))
  = Raise (Exn "ValueError" "invalid literal for int() with base 10: '\x1c5'")
  /\ py_int (PyStr (String "5" (String (ascii_of_nat 31) "")))
     = Raise (Exn "ValueError" "invalid literal for int() with base 10: '5\x1f'")
  /\ py_int (PyStr "1__0")
     = Raise (Exn "ValueError" "invalid literal for int() with base 10: '1__0'")
  /\ py_int (PyStr "5.0")
     = Raise (Exn "ValueError" "invalid literal for int() with base 10: '5.0'")
  /\ py_int (PyStr "")
     = Raise (Exn "ValueError" "invalid literal for int() with base 10: ''")
  /\ py_int PyNone
     = Raise (Exn "TypeError"
                "int() argument must be a string, a bytes-like object or a real number, not 'NoneType'").
Proof. repeat split; reflexivity. Qed.

Example int_refuses_long_digits :
  py_int (PyStr (string_of_list_ascii (repeat "1"%char 4301)))
  = Raise (Exn "ValueError"
             "Exceeds the limit (4300 digits) for integer string conversion: value has 4301 digits; use sys.set_int_max_str_digits() to increase the limit").
Proof. vm_compute. reflexivity. Qed.

(** A query that is not text reaches the adapter, whose guard raises: the
    handler answers 500 with the text of the [AttributeError]. *)
Example search_non_text_query :
  search ada_provider (<["query" := PyInt 7]> (∅ : pydict)) empty_world
  = (Ok {| body := ErrorBody "'int' object has no attribute 'strip'"; status := 500 |},
     empty_world).
Proof. reflexivity. Qed.

(** X10.  The defaults of the handler: a request that names no strategy is
    served as a vector search, and one that names no [top] as [top] 5. *)
Theorem search_defaults (svc : Services) (data : pydict) (w : World) :
  (data !! "search_type" = None ->
   search svc data w = search svc (<["search_type" := PyStr "vector"]> data) w)
  /\ (data !! "top" = None ->
      search svc data w = search svc (<["top" := PyInt 5]> data) w).
Proof.
  split; intros Hnone; unfold search, dict_get_default;
    rewrite Hnone, lookup_insert_eq, !lookup_insert_ne by discriminate; reflexivity.
Qed.

Lemma search_defaults_witness :
  search catalog (<["query" := PyStr "cloud"]> (∅ : pydict)) empty_world
  = search catalog
      (<["search_type" := PyStr "vector"]> (<["query" := PyStr "cloud"]> (∅ : pydict)))
      empty_world.
Proof.
  refine (proj1 (search_defaults catalog (<["query" := PyStr "cloud"]> (∅ : pydict))
                   empty_world) _).
  reflexivity.
Defined.

Lemma process_result_outcome (row : pydict) (w : World) :
  (exists shown, process_result row w = (Ok shown, w))
  \/ (exists e, process_result row w = (Raise e, w)).
Proof.
  unfold process_result, bind, lift.
  destruct (display_content _) as [content|e].
  - left. eexists. reflexivity.
  - right. exists e. reflexivity.
Qed.

Lemma map_process_result_outcome (rows : list pydict) (w : World) :
  (exists shown, map_m process_result rows w = (Ok shown, w))
  \/ (exists e, map_m process_result rows w = (Raise e, w)).
Proof.
  induction rows as [|row rows IH].
  - left. exists []. reflexivity.
  - cbn [map_m]. unfold bind.
    destruct (process_result_outcome row w) as [[r Hr] | [e Hr]]; rewrite Hr.
    + destruct IH as [[shown Hrun] | [e Hrun]]; rewrite Hrun.
      * left. eexists. reflexivity.
      * right. exists e. reflexivity.
    + right. exists e. reflexivity.
Qed.

Lemma respond_outcome (query search_type : pyval) (rows : list pydict) (w : World) :
  (exists shown,
     respond query search_type rows w
     = (Ok {| body := ResultsBody shown (length shown) query search_type; status := 200 |}, w))
  \/ (exists e, respond query search_type rows w = (Raise e, w)).
Proof.
  unfold respond, bind.
  destruct (map_process_result_outcome rows w) as [[shown Hrun] | [e Hrun]]; rewrite Hrun.
  - left. exists shown. reflexivity.
  - right. exists e. reflexivity.
Qed.

(** X11.  The handler answers every request body and never raises.  The
    answer is one of: status 200 with rows and their count; status 400 with
    one of the two validation messages, nothing having been called; status
    500 with the text of an exception. *)
Theorem search_always_responds (svc : Services) (data : pydict) (w : World) :
  exists response w',
    search svc data w = (Ok response, w')
    /\ ((status response = 200%Z
         /\ exists shown,
              body response
              = ResultsBody shown (length shown)
                  (dict_get_default data "query" (PyStr ""))
                  (dict_get_default data "search_type" (PyStr "vector")))
        \/ (status response = 400%Z /\ w' = w
            /\ (body response = ErrorBody "Query is required"
                \/ body response = ErrorBody "Invalid search type"))
        \/ (status response = 500%Z /\ exists e, body response = ErrorBody (exn_str e))).
Proof.
  unfold search, try_except, bind at 1, lift.
  destruct (py_int _) as [n|e].
  2:{ eexists; eexists; split; [reflexivity|]. right; right. simpl. eauto. }
  set (query := dict_get_default data "query" (PyStr "")).
  set (search_type := dict_get_default data "search_type" (PyStr "vector")).
  assert (forall run : M (list pydict),
            exists response w',
              (let (r, w1) := bind run (respond query search_type) w in
               match r with
               | Ok a => (Ok a, w1)
               | Raise e => ret {| body := ErrorBody (exn_str e); status := 500 |} w1
               end) = (Ok response, w')
              /\ ((status response = 200%Z
                   /\ exists shown,
                        body response = ResultsBody shown (length shown) query search_type)
                  \/ (status response = 400%Z /\ w' = w
                      /\ (body response = ErrorBody "Query is required"
                          \/ body response = ErrorBody "Invalid search type"))
                  \/ (status response = 500%Z
                      /\ exists e, body response = ErrorBody (exn_str e)))) as Hrun.
  { intros run. unfold bind.
    destruct (run w) as [[rows|e] w1].
    - destruct (respond_outcome query search_type rows w1) as [[shown ->] | [e ->]].
      + eexists; eexists; split; [reflexivity|]. left. simpl. eauto.
      + eexists; eexists; split; [reflexivity|]. right; right. simpl. eauto.
    - eexists; eexists; split; [reflexivity|]. right; right. simpl. eauto. }
  destruct (truthy query); cbn [negb].
  - destruct (eq_str search_type "vector"); [apply Hrun|].
    destruct (eq_str search_type "hybrid"); [apply Hrun|].
    destruct (eq_str search_type "semantic"); [apply Hrun|].
    eexists; eexists; split; [reflexivity|]. right; left. simpl. eauto.
  - eexists; eexists; split; [reflexivity|]. right; left. simpl. eauto.
Qed.

Lemma slice_to_length (n : nat) (s : string) :
  String.length (PyStr.slice_to n s) = Nat.min n (String.length s).
Proof.
  revert s. induction n as [|n IH]; intros [|c s]; simpl; try reflexivity.
  rewrite IH. reflexivity.
Qed.

(** X12.  What the handler shows of a content: a text of at most 500
    characters as it is, a longer one as its first 500 characters followed
    by three dots, hence never more than 503 characters. *)
Theorem display_content_bound (c : string) :
  exists s,
    display_content (PyStr c) = Ok (PyStr s)
    /\ (String.length s <= 503)%nat
    /\ ((String.length c <= 500)%nat -> s = c)
    /\ ((500 < String.length c)%nat -> s = substring 0 500 c +:+ "...").
Proof.
  eexists. split; [apply display_content_text|].
  destruct (Nat.ltb_spec 500 (String.length c)) as [Hlong|Hshort].
  - split; [|split; [lia|]].
    + rewrite string_length_append, slice_to_length.
      change (String.length "...") with 3%nat. lia.
    + intros _. rewrite PyStrFacts.slice_to_substring. reflexivity.
  - split; [lia|]. split; [reflexivity | lia].
Qed.

Lemma display_content_bound_witness :
  exists s, display_content (PyStr "Elastic capacity.") = Ok (PyStr s)
            /\ s = "Elastic capacity.".
Proof.
  destruct (display_content_bound "Elastic capacity.") as (s & Hshown & _ & Hshort & _).
  exists s. split; [exact Hshown|]. apply Hshort. vm_compute. lia.
Defined.

(** ** Query reformulation on the other histories *)

(** X13.  A history without any user-role message leaves the query as it
    is, whether the look-back applies or not. *)
Theorem reformulate_without_user_message (user_query : string) (chat_history : list pydict) :
  Forall (fun m => role_is_user m = false) chat_history ->
  extract_search_query user_query chat_history = Ok user_query.
Proof.
  intros Hnone. unfold extract_search_query.
  destruct chat_history as [|m rest] eqn:Hhist; [reflexivity|]. rewrite <- Hhist in *.
  destruct (needs_context user_query); [|reflexivity].
  rewrite <- (app_nil_r (rev chat_history)).
  rewrite find_last_user_skip by (apply Forall_rev; exact Hnone).
  reflexivity.
Qed.

Lemma reformulate_without_user_message_witness :
  extract_search_query "tell me more" [chat_message "assistant" "Azure AI Search is ..."]
  = Ok "tell me more".
Proof.
  apply reformulate_without_user_message.
  constructor; [reflexivity | constructor].
Defined.

(** X14.  Only the most recent user-role message is looked at: when its
    content is missing, [None] or empty, the query is left as it is, even if
    an earlier user message has text. *)
Theorem reformulate_ignores_earlier_messages
    (user_query : string) (earlier : list pydict) (message : pydict) (later : list pydict) :
  role_is_user message = true ->
  Forall (fun m => role_is_user m = false) later ->
  truthy (dict_get message "content") = false ->
  extract_search_query user_query (earlier ++ message :: later) = Ok user_query.
Proof.
  intros Huser Hlater Hcontent. unfold extract_search_query.
  destruct (earlier ++ message :: later) as [|m0 rest0] eqn:Hhist.
  { destruct earlier; discriminate. }
  rewrite <- Hhist.
  destruct (needs_context user_query); [|reflexivity].
  rewrite rev_app_distr. simpl. rewrite <- app_assoc.
  rewrite find_last_user_skip by (apply Forall_rev; exact Hlater).
  simpl. rewrite Huser, Hcontent. reflexivity.
Qed.

Lemma reformulate_ignores_earlier_messages_witness :
  extract_search_query "tell me more"
    [chat_message "user" "tell me about X"; chat_message "user" ""]
  = Ok "tell me more".
Proof.
  apply (reformulate_ignores_earlier_messages "tell me more"
           [chat_message "user" "tell me about X"] (chat_message "user" "") []).
  - reflexivity.
  - constructor.
  - reflexivity.
Defined.

(** X15.  When the look-back applies and the most recent user-role message
    has a content that is truthy and not a string, the concatenation raises
    [TypeError]: the function is not total on histories that are not
    text. *)
Theorem reformulate_raises_on_non_text
    (user_query : string) (earlier : list pydict) (message : pydict)
    (later : list pydict) (content : pyval) :
  (length (PyStr.split user_query) < 5)%nat
  \/ PyStr.contains "more" (PyStr.lower user_query) = true
  \/ PyStr.contains "elaborat" (PyStr.lower user_query) = true ->
  role_is_user message = true ->
  Forall (fun m => role_is_user m = false) later ->
  message !! "content" = Some content ->
  truthy content = true ->
  (forall s, content <> PyStr s) ->
  exists e,
    extract_search_query user_query (earlier ++ message :: later) = Raise e
    /\ exn_class e = "TypeError".
Proof.
  intros Hneeds%needs_context_true Huser Hlater Hcontent Htruthy Hnot.
  unfold extract_search_query.
  destruct (earlier ++ message :: later) as [|m0 rest0] eqn:Hhist.
  { destruct earlier; discriminate. }
  rewrite <- Hhist, Hneeds.
  rewrite rev_app_distr. simpl. rewrite <- app_assoc.
  rewrite find_last_user_skip by (apply Forall_rev; exact Hlater).
  assert (dict_get message "content" = content) as Hget.
  { unfold dict_get. rewrite Hcontent. reflexivity. }
  cbn [find_last_user app]. rewrite Huser, Hget, Htruthy.
  destruct content as [|b|z|f|s|l];
    try (eexists; split; reflexivity).
  exfalso. exact (Hnot s eq_refl).
Qed.

Lemma reformulate_raises_on_non_text_witness :
  exists e,
    extract_search_query "more"
      [<["role" := PyStr "user"]> (<["content" := PyInt 42]> (∅ : pydict))]
    = Raise e
    /\ exn_class e = "TypeError".
Proof.
  apply (reformulate_raises_on_non_text "more" []
           (<["role" := PyStr "user"]> (<["content" := PyInt 42]> (∅ : pydict))) []
           (PyInt 42)).
  - left. vm_compute. lia.
  - reflexivity.
  - constructor.
  - reflexivity.
  - reflexivity.
  - intros s. discriminate.
Defined.

(** ** Upload of an empty file *)

(** X16.  With no document in the file nothing is submitted to the index:
    the run prints its first and last line and ends. *)
Theorem upload_nothing
    (svc : Services) (search_index_name documents_file : string) (w : World) :
  files w !! documents_file = Some [] ->
  upload_documents svc search_index_name documents_file w
  = (Ok tt,
     extend w
       [Print ("Uploading 0 documents to index '" +:+ search_index_name +:+ "'...");
        Print ("Document upload completed for index '" +:+ search_index_name +:+ "'")]).
Proof.
  intros Hfile. unfold upload_documents, bind, json_load. rewrite Hfile.
  unfold print. cbn [for_each range range_loop length ret].
  rewrite !log_extend, extend_extend. reflexivity.
Qed.

Lemma upload_nothing_witness :
  upload_documents offline_index "lab-index" "empty.json"
    {| trace := []; files := <["empty.json" := []]> ∅ |}
  = (Ok tt,
     extend {| trace := []; files := <["empty.json" := []]> ∅ |}
       [Print ("Uploading 0 documents to index '" +:+ "lab-index" +:+ "'...");
        Print ("Document upload completed for index '" +:+ "lab-index" +:+ "'")]).
Proof.
  apply upload_nothing. reflexivity.
Defined.

(** ** The offline step: calls, pauses, failures *)

Lemma provider_inputs_app (a b : list Event) :
  provider_inputs (a ++ b) = provider_inputs a ++ provider_inputs b.
Proof. apply omap_app. Qed.

Lemma sleeps_app (a b : list Event) : sleeps (a ++ b) = sleeps a ++ sleeps b.
Proof. apply omap_app. Qed.

Section OfflineTrace.
Variable svc : Services.

Lemma get_embeddings_text_trace (s : string) (w : World) :
  exists v events,
    get_embeddings svc (PyStr s) w = (Ok v, extend w events)
    /\ provider_inputs events = (if PyStr.all_space s then [] else [truncate s])
    /\ sleeps events = []
    /\ (PyStr.all_space s = true -> v = zero_vector).
Proof.
  destruct (PyStr.all_space s) eqn:H.
  - exists zero_vector, []. rewrite extend_nil.
    split; [apply get_embeddings_blank, H|]. repeat split.
  - rewrite get_embeddings_run by exact H. cbn zeta.
    destruct (embeddings_create _ _ _ _) as [response|e];
      [destruct (data response) as [|first rest]|];
      eexists; eexists; rewrite !log_extend, ?extend_extend;
      (split; [reflexivity|]); (split; [reflexivity|]); (split; [reflexivity|]);
      discriminate.
Qed.

Lemma get_embeddings_field_trace (doc : pydict) (field : string) (w : World) :
  text_or_absent doc field ->
  exists v events,
    get_embeddings svc (dict_get_default doc field (PyStr "")) w = (Ok v, extend w events)
    /\ provider_inputs events = field_text doc field
    /\ sleeps events = []
    /\ (blank_field doc field -> v = zero_vector).
Proof.
  unfold field_text, dict_get_default, blank_field.
  intros [Hf | [Hf | [s Hf]]]; rewrite Hf; cbn [default].
  - exists zero_vector, []. rewrite extend_nil. repeat split.
  - exists zero_vector, []. rewrite extend_nil. repeat split.
  - destruct (get_embeddings_text_trace s w) as (v & events & Hrun & Hin & Hsl & Hzero).
    exists v, events. split; [exact Hrun|]. split; [exact Hin|]. split; [exact Hsl|].
    intros [Hb | [Hb | (s' & Hb & Hs')]]; try discriminate.
    apply Hzero. congruence.
Qed.

Lemma embed_document_trace (i : nat) (doc : pydict) (w : World) :
  text_or_absent doc "title" ->
  text_or_absent doc "content" ->
  exists title_embedding content_embedding events,
    embed_document svc i doc w
    = (Ok (<["contentVector" := PyList content_embedding]>
             (<["titleVector" := PyList title_embedding]> doc)),
       extend w events)
    /\ provider_inputs events = embedded_texts doc
    /\ sleeps events = (if paced i then [500%Z] else [])
    /\ (blank_field doc "title" -> title_embedding = zero_vector)
    /\ (blank_field doc "content" -> content_embedding = zero_vector).
Proof.
  intros Htitle Hcontent. unfold embed_document. fold (paced i).
  set (pace := if paced i
               then bind (print ("Processed " +:+ pretty i +:+ " documents..."))
                      (fun _ => sleep 500)
               else ret tt).
  assert (exists events, pace w = (Ok tt, extend w events)
                         /\ provider_inputs events = []
                         /\ sleeps events = (if paced i then [500%Z] else []))
    as (paced_events & Hpace & Hpin & Hpsl).
  { unfold pace. destruct (paced i).
    - eexists. unfold bind, print, sleep. rewrite !log_extend, extend_extend.
      split; [reflexivity|]. split; reflexivity.
    - exists []. rewrite extend_nil. split; [reflexivity|]. split; reflexivity. }
  destruct (get_embeddings_field_trace doc "title" (extend w paced_events) Htitle)
    as (tv & titled & Htv & Htin & Htsl & Htz).
  destruct (get_embeddings_field_trace doc "content"
              (extend (extend w paced_events) titled) Hcontent)
    as (cv & contented & Hcv & Hcin & Hcsl & Hcz).
  exists tv, cv, (paced_events ++ titled ++ contented).
  split; [|split; [|split; [|split; assumption]]].
  - unfold bind at 1. rewrite Hpace. unfold bind at 1. rewrite Htv.
    unfold bind. rewrite Hcv. unfold ret. rewrite !extend_extend. reflexivity.
  - rewrite !provider_inputs_app, Hpin, Htin, Hcin. reflexivity.
  - rewrite !sleeps_app, Hpsl, Htsl, Hcsl, !app_nil_r. reflexivity.
Qed.

Lemma embed_documents_trace (documents : list pydict) (i : nat) (w : World) :
  Forall (fun doc => text_or_absent doc "title" /\ text_or_absent doc "content") documents ->
  exists documents' events,
    embed_documents svc i documents w = (Ok documents', extend w events)
    /\ provider_inputs events = flat_map embedded_texts documents
    /\ sleeps events
       = map (fun _ => 500%Z) (List.filter paced (seq i (length documents)))
    /\ (Forall (fun doc => blank_field doc "title" /\ blank_field doc "content") documents ->
        documents'
        = map (fun doc => <["contentVector" := PyList zero_vector]>
                            (<["titleVector" := PyList zero_vector]> doc)) documents).
Proof.
  intros Hdocs. revert i w.
  induction Hdocs as [|doc documents [Htitle Hcontent] _ IH]; intros i w.
  - exists [], []. rewrite extend_nil. repeat split.
  - destruct (embed_document_trace i doc w Htitle Hcontent)
      as (tv & cv & first & Hdoc & Hin & Hsl & Htz & Hcz).
    destruct (IH (S i) (extend w first)) as (rest' & later & Hrest & Hrin & Hrsl & Hrz).
    eexists. exists (first ++ later).
    split; [|split; [|split]].
    + cbn [embed_documents]. unfold bind at 1. rewrite Hdoc.
      unfold bind. rewrite Hrest, extend_extend. reflexivity.
    + rewrite provider_inputs_app, Hin, Hrin. reflexivity.
    + rewrite sleeps_app, Hsl, Hrsl. cbn [length seq List.filter].
      destruct (paced i); reflexivity.
    + intros Hblank. inversion Hblank as [|? ? [Hbt Hbc] Hrest_blank]; subst.
      cbn [map]. rewrite (Htz Hbt), (Hcz Hbc), (Hrz Hrest_blank). reflexivity.
Qed.

(** The step around its loop, when the loop ends normally. *)
Lemma process_documents_run (documents_file : string) (documents documents' : list pydict)
    (events : list Event) (w : World) :
  files w !! documents_file = Some documents ->
  embed_documents svc 0 documents
    (extend w [Print ("Processing " +:+ pretty (length documents) +:+ " documents...")])
  = (Ok documents',
     extend (extend w [Print ("Processing " +:+ pretty (length documents)
                                +:+ " documents...")]) events) ->
  process_documents svc documents_file w
  = (Ok documents',
     {| trace := trace w
                 ++ [Print ("Processing " +:+ pretty (length documents) +:+ " documents...")]
                 ++ events
                 ++ [Print ("Completed processing " +:+ pretty (length documents')
                              +:+ " documents with embeddings.");
                     Print ("Documents with embeddings saved to "
                              +:+ output_name documents_file)];
        files := <[output_name documents_file := documents']> (files w) |}).
Proof.
  intros Hfile Hrun.
  unfold process_documents, bind, json_load. rewrite Hfile.
  unfold print at 1. rewrite log_extend, Hrun.
  unfold print, json_dump, ret, log, extend. cbn [trace files].
  rewrite <- !app_assoc. reflexivity.
Qed.

End OfflineTrace.

Lemma paced_count (n : nat) : length (List.filter paced (seq 0 n)) = ((n - 1) / 10)%nat.
Proof.
  induction n as [|n IH]; [reflexivity|].
  rewrite seq_S, List.filter_app, length_app, IH. cbn [List.filter Nat.add].
  replace (S n - 1)%nat with n by lia.
  pose proof (Nat.div_mod_eq n 10) as Hn.
  pose proof (Nat.mod_upper_bound n 10) as Hnb.
  pose proof (Nat.div_mod_eq (n - 1) 10) as Hp.
  pose proof (Nat.mod_upper_bound (n - 1) 10) as Hpb.
  unfold paced.
  destruct (Nat.ltb_spec 0 n) as [Hpos|Hzero];
    destruct (Nat.eqb_spec (n mod 10) 0) as [Hmod|Hmod]; cbn [andb length]; lia.
Qed.

Lemma map_const_repeat {A B} (b : B) (l : list A) :
  map (fun _ => b) l = repeat b (length l).
Proof. induction l as [|x l IH]; [reflexivity|]. cbn. rewrite IH. reflexivity. Qed.

Lemma process_documents_trace
    (svc : Services) (documents_file : string) (documents : list pydict) (w : World) :
  files w !! documents_file = Some documents ->
  Forall (fun doc => text_or_absent doc "title" /\ text_or_absent doc "content") documents ->
  exists documents' events,
    process_documents svc documents_file w
    = (Ok documents',
       {| trace := trace w ++ events;
          files := <[output_name documents_file := documents']> (files w) |})
    /\ provider_inputs events = flat_map embedded_texts documents
    /\ sleeps events = repeat 500%Z ((length documents - 1) / 10)
    /\ (Forall (fun doc => blank_field doc "title" /\ blank_field doc "content") documents ->
        documents'
        = map (fun doc => <["contentVector" := PyList zero_vector]>
                            (<["titleVector" := PyList zero_vector]> doc)) documents).
Proof.
  intros Hfile Hdocs.
  destruct (embed_documents_trace svc documents 0
              (extend w [Print ("Processing " +:+ pretty (length documents)
                                  +:+ " documents...")]) Hdocs)
    as (documents' & events & Hrun & Hin & Hsl & Hzero).
  exists documents'. eexists. split; [|split; [|split]].
  - apply (process_documents_run svc documents_file documents documents' events w Hfile Hrun).
  - rewrite !provider_inputs_app, Hin. cbn. rewrite app_nil_r. reflexivity.
  - rewrite !sleeps_app, Hsl, map_const_repeat, paced_count. cbn. rewrite app_nil_r.
    reflexivity.
  - exact Hzero.
Qed.

(** X17.  The offline step asks the provider, document after document, for
    the title and then the content, each cut to 8000 characters; a field
    that is missing, [null] or blank costs no call.  No other text is
    sent. *)
Theorem process_documents_provider_calls
    (svc : Services) (documents_file : string) (documents : list pydict) (w : World) :
  files w !! documents_file = Some documents ->
  Forall (fun doc => text_or_absent doc "title" /\ text_or_absent doc "content") documents ->
  exists documents' events,
    process_documents svc documents_file w
    = (Ok documents',
       {| trace := trace w ++ events;
          files := <[output_name documents_file := documents']> (files w) |})
    /\ provider_inputs events = flat_map embedded_texts documents.
Proof.
  intros Hfile Hdocs.
  destruct (process_documents_trace svc documents_file documents w Hfile Hdocs)
    as (documents' & events & Hrun & Hin & _).
  exists documents', events. split; assumption.
Qed.

Lemma process_documents_provider_calls_witness :
  exists documents' events,
    process_documents ada_provider "documents.json" offline_world
    = (Ok documents',
       {| trace := trace offline_world ++ events;
          files := <[output_name "documents.json" := documents']> (files offline_world) |})
    /\ provider_inputs events = flat_map embedded_texts [sample_document; sample_document].
Proof.
  apply (process_documents_provider_calls ada_provider "documents.json"
           [sample_document; sample_document] offline_world).
  - reflexivity.
  - constructor; [exact sample_document_text|].
    constructor; [exact sample_document_text | constructor].
Defined.

(** X18.  The offline step pauses for half a second before the documents of
    index 10, 20, ...: [(n - 1) / 10] pauses for [n] documents, none for ten
    documents or fewer. *)
Theorem process_documents_pacing
    (svc : Services) (documents_file : string) (documents : list pydict) (w : World) :
  files w !! documents_file = Some documents ->
  Forall (fun doc => text_or_absent doc "title" /\ text_or_absent doc "content") documents ->
  exists documents' events,
    process_documents svc documents_file w
    = (Ok documents',
       {| trace := trace w ++ events;
          files := <[output_name documents_file := documents']> (files w) |})
    /\ sleeps events = repeat 500%Z ((length documents - 1) / 10).
Proof.
  intros Hfile Hdocs.
  destruct (process_documents_trace svc documents_file documents w Hfile Hdocs)
    as (documents' & events & Hrun & _ & Hsl & _).
  exists documents', events. split; assumption.
Qed.

Lemma Forall_repeat {A} (P : A -> Prop) (x : A) (n : nat) : P x -> Forall P (repeat x n).
Proof. intros H. induction n; constructor; assumption. Qed.

Lemma process_documents_pacing_witness :
  exists documents' events,
    process_documents ada_provider "documents.json" long_offline_world
    = (Ok documents',
       {| trace := trace long_offline_world ++ events;
          files := <[output_name "documents.json" := documents']>
                     (files long_offline_world) |})
    /\ sleeps events = repeat 500%Z ((length (repeat sample_document 25) - 1) / 10).
Proof.
  apply (process_documents_pacing ada_provider "documents.json"
           (repeat sample_document 25) long_offline_world).
  - reflexivity.
  - apply Forall_repeat. exact sample_document_text.
Defined.

Lemma blank_field_text (doc : pydict) (field : string) :
  blank_field doc field -> text_or_absent doc field /\ field_text doc field = [].
Proof.
  unfold blank_field, text_or_absent, field_text, dict_get_default.
  intros [H | [H | (s & H & Hs)]]; rewrite H; cbn [from_option id].
  - split; [left; reflexivity | reflexivity].
  - split; [right; left; reflexivity | reflexivity].
  - rewrite Hs. split; [right; right; eauto | reflexivity].
Qed.

(** X19.  Documents with nothing to embed, their title and content missing,
    [null] or blank, go through without any call to the provider and come
    out with both vectors set to the zero vector. *)
Theorem process_documents_without_text
    (svc : Services) (documents_file : string) (documents : list pydict) (w : World) :
  files w !! documents_file = Some documents ->
  Forall (fun doc => blank_field doc "title" /\ blank_field doc "content") documents ->
  exists events,
    process_documents svc documents_file w
    = (Ok (map (fun doc => <["contentVector" := PyList zero_vector]>
                             (<["titleVector" := PyList zero_vector]> doc)) documents),
       {| trace := trace w ++ events;
          files := <[output_name documents_file
                     := map (fun doc => <["contentVector" := PyList zero_vector]>
                                          (<["titleVector" := PyList zero_vector]> doc))
                          documents]> (files w) |})
    /\ provider_inputs events = [].
Proof.
  intros Hfile Hblank.
  assert (Forall (fun doc => text_or_absent doc "title" /\ text_or_absent doc "content")
            documents) as Hdocs.
  { eapply Forall_impl; [exact Hblank|]. intros doc [Ht Hc].
    split; [apply (blank_field_text doc "title" Ht) | apply (blank_field_text doc "content" Hc)]. }
  destruct (process_documents_trace svc documents_file documents w Hfile Hdocs)
    as (documents' & events & Hrun & Hin & _ & Hzero).
  exists events. rewrite <- (Hzero Hblank). split; [exact Hrun|].
  rewrite Hin. clear -Hblank.
  induction Hblank as [|doc documents [Ht Hc] _ IH]; [reflexivity|].
  cbn [flat_map]. unfold embedded_texts at 1.
  rewrite (proj2 (blank_field_text doc "title" Ht)),
          (proj2 (blank_field_text doc "content" Hc)), IH.
  reflexivity.
Qed.

Lemma bare_document_blank :
  blank_field bare_document "title" /\ blank_field bare_document "content".
Proof.
  split.
  - left. reflexivity.
  - right. right. exists "  ". split; reflexivity.
Defined.

Lemma process_documents_without_text_witness :
  exists events,
    process_documents throttled_provider "documents.json" bare_world
    = (Ok (map (fun doc => <["contentVector" := PyList zero_vector]>
                             (<["titleVector" := PyList zero_vector]> doc)) [bare_document]),
       {| trace := trace bare_world ++ events;
          files := <[output_name "documents.json"
                     := map (fun doc => <["contentVector" := PyList zero_vector]>
                                          (<["titleVector" := PyList zero_vector]> doc))
                          [bare_document]]> (files bare_world) |})
    /\ provider_inputs events = [].
Proof.
  apply (process_documents_without_text throttled_provider "documents.json"
           [bare_document] bare_world).
  - reflexivity.
  - constructor; [exact bare_document_blank | constructor].
Defined.

Lemma embed_document_abort (svc : Services) (i : nat) (doc : pydict) (v : pyval) (w : World) :
  non_text_field doc "title" v
  \/ (text_or_absent doc "title" /\ non_text_field doc "content" v) ->
  exists w',
    embed_document svc i doc w
    = (Raise (Exn "AttributeError" ("'" +:+ type_name v +:+ "' object has no attribute 'strip'")), w')
    /\ files w' = files w.
Proof.
  intros Hbad. unfold embed_document.
  set (pace := if (0 <? i)%nat && (i mod 10 =? 0)%nat
               then bind (print ("Processed " +:+ pretty i +:+ " documents..."))
                      (fun _ => sleep 500)
               else ret tt).
  assert (exists events, pace w = (Ok tt, extend w events)) as [paced_events Hpace].
  { unfold pace. destruct ((0 <? i)%nat && (i mod 10 =? 0)%nat).
    - eexists. unfold bind, print, sleep. rewrite !log_extend, extend_extend. reflexivity.
    - exists []. rewrite extend_nil. reflexivity. }
  assert (forall field w1,
            non_text_field doc field v ->
            get_embeddings svc (dict_get_default doc field (PyStr "")) w1
            = (Raise (Exn "AttributeError" ("'" +:+ type_name v +:+ "' object has no attribute 'strip'")),
               w1)) as Hraise.
  { intros field w1 (Hfield & Htruthy & Hnot).
    unfold dict_get_default. rewrite Hfield. cbn [from_option id].
    rewrite (get_embeddings_non_text svc v w1 Hnot), Htruthy. reflexivity. }
  unfold bind at 1. rewrite Hpace.
  destruct Hbad as [Htitle | [Htitle Hcontent]].
  - unfold bind. rewrite (Hraise "title" _ Htitle). eexists. split; reflexivity.
  - destruct (get_embeddings_field svc doc "title" (extend w paced_events) Htitle)
      as (tv & titled & Htv).
    unfold bind at 1. rewrite Htv.
    unfold bind. rewrite (Hraise "content" _ Hcontent). eexists. split; reflexivity.
Qed.

Lemma embed_documents_abort
    (svc : Services) (good : list pydict) (bad : pydict) (rest : list pydict)
    (v : pyval) (i : nat) (w : World) :
  Forall (fun doc => text_or_absent doc "title" /\ text_or_absent doc "content") good ->
  non_text_field bad "title" v
  \/ (text_or_absent bad "title" /\ non_text_field bad "content" v) ->
  exists w',
    embed_documents svc i (good ++ bad :: rest) w
    = (Raise (Exn "AttributeError" ("'" +:+ type_name v +:+ "' object has no attribute 'strip'")), w')
    /\ files w' = files w.
Proof.
  intros Hgood Hbad. revert i w.
  induction Hgood as [|doc good [Htitle Hcontent] _ IH]; intros i w.
  - destruct (embed_document_abort svc i bad v w Hbad) as (w' & Hrun & Hfiles).
    exists w'. split; [|exact Hfiles].
    cbn [app embed_documents]. unfold bind. rewrite Hrun. reflexivity.
  - destruct (embed_document_run svc i doc w Htitle Hcontent) as (doc' & events & Hdoc & _).
    destruct (IH (S i) (extend w events)) as (w' & Hrun & Hfiles).
    exists w'. split; [|exact Hfiles].
    cbn [app embed_documents]. unfold bind at 1. rewrite Hdoc.
    unfold bind. rewrite Hrun. reflexivity.
Qed.

(** X20.  A document whose title or content is truthy and not a string
    stops the offline step: [AttributeError] comes out of the adapter's
    guard, which is outside the [try], and no file is written, the
    documents embedded before it being lost. *)
Theorem process_documents_aborts_on_non_text
    (svc : Services) (documents_file : string)
    (good : list pydict) (bad : pydict) (rest : list pydict) (v : pyval) (w : World) :
  files w !! documents_file = Some (good ++ bad :: rest) ->
  Forall (fun doc => text_or_absent doc "title" /\ text_or_absent doc "content") good ->
  non_text_field bad "title" v
  \/ (text_or_absent bad "title" /\ non_text_field bad "content" v) ->
  exists e w',
    process_documents svc documents_file w = (Raise e, w')
    /\ exn_class e = "AttributeError"
    /\ files w' = files w.
Proof.
  intros Hfile Hgood Hbad.
  destruct (embed_documents_abort svc good bad rest v 0
              (extend w [Print ("Processing " +:+ pretty (length (good ++ bad :: rest))
                                  +:+ " documents...")]) Hgood Hbad)
    as (w' & Hrun & Hfiles).
  eexists. exists w'. split.
  - unfold process_documents, bind, json_load. rewrite Hfile.
    unfold print at 1. rewrite log_extend, Hrun. reflexivity.
  - split; [reflexivity | exact Hfiles].
Qed.

Lemma process_documents_aborts_on_non_text_witness :
  exists e w',
    process_documents ada_provider "documents.json" numbered_world = (Raise e, w')
    /\ exn_class e = "AttributeError"
    /\ files w' = files numbered_world.
Proof.
  apply (process_documents_aborts_on_non_text ada_provider "documents.json"
           [sample_document] numbered_document [] (PyInt 2024) numbered_world).
  - reflexivity.
  - constructor; [exact sample_document_text | constructor].
  - left. split; [reflexivity|]. split; [reflexivity|]. intros s. discriminate.
Defined.

(** ** The prompt flow: retrieval *)

Section FlowFacts.
Variable svc : Services.
Variable model : string.

(** X21.  The prompt flow has no fallback: when the provider raises, or
    answers with an empty [data] list, the exception leaves [vector_search]
    and no search is issued.  The query is sent to the provider as it is,
    neither checked for blanks nor cut. *)
Theorem flow_embedding_failure_propagates (search_query : string) (e : exn) (w : World) :
  embeddings_create svc (trace w) search_query model = Raise e
  \/ (exists response,
        embeddings_create svc (trace w) search_query model = Ok response
        /\ data response = []
        /\ e = Exn "IndexError" "list index out of range") ->
  PromptFlows.vector_search svc model search_query w
  = (Raise e, log (EmbeddingsCreate search_query model) w).
Proof.
  intros Hfail. unfold PromptFlows.vector_search, bind, call.
  destruct Hfail as [-> | (response & -> & Hdata & ->)]; [reflexivity|].
  rewrite Hdata. reflexivity.
Qed.

Lemma format_result_run (row : pydict) (w : World) :
  Forall (fun field => is_Some (row !! field)) flow_keys ->
  exists out, PromptFlows.format_result row w = (Ok out, w) /\ scored row out.
Proof.
  intros Hkeys.
  apply Forall_cons in Hkeys as [[id Hid] Hkeys].
  apply Forall_cons in Hkeys as [[title Htitle] Hkeys].
  apply Forall_cons in Hkeys as [[content Hcontent] Hkeys].
  apply Forall_cons in Hkeys as [[category Hcategory] Hkeys].
  apply Forall_cons in Hkeys as [[score Hscore] _].
  eexists. split.
  - unfold PromptFlows.format_result, bind, lift, dict_item.
    rewrite Hid, Htitle, Hcontent, Hcategory, Hscore. reflexivity.
  - split; [|split].
    + rewrite !dom_insert_L, dom_empty_L. set_solver.
    + intros field Hfield.
      repeat (apply elem_of_cons in Hfield as [-> | Hfield];
              [repeat (rewrite lookup_insert_ne by discriminate);
               rewrite lookup_insert_eq; congruence|]).
      inversion Hfield.
    + rewrite lookup_insert_eq. congruence.
Qed.

Lemma map_format_result_run (rows : list pydict) (w : World) :
  Forall (fun row => Forall (fun field => is_Some (row !! field)) flow_keys) rows ->
  exists outs, map_m PromptFlows.format_result rows w = (Ok outs, w) /\ Forall2 scored rows outs.
Proof.
  induction 1 as [|row rows Hrow _ (outs & Hrun & Houts)].
  - exists []. split; [reflexivity | constructor].
  - destruct (format_result_run row w Hrow) as (out & Hout & Hscored).
    exists (out :: outs). split; [|constructor; assumption].
    cbn [map_m]. unfold bind. rewrite Hout, Hrun. reflexivity.
Qed.

(** X22.  When the provider answers, the prompt flow issues one search:
    the query as lexical text with the first embedding as vector, always
    with [k] 3 on [vectorEmbedding] and [top] 5, the vector query being the
    dictionary of these three items.  Rows that have the five keys it reads
    come back in order, each as [id], [title], [content], [category] and the
    score under [score]. *)
Theorem flow_vector_search_rows
    (search_query : string) (response : CreateEmbeddingResponse)
    (first : Embedding) (others : list Embedding) (rows : list pydict) (w : World) :
  let w1 := log (EmbeddingsCreate search_query model) w in
  let request :=
    {| search_text := PyStr search_query;
       vector_queries :=
         [QueryDict (<["vector" := PyList (embedding first)]>
                    (<["k" := PyInt 3]>
                    (<["fields" := PyStr "vectorEmbedding"]> (∅ : pydict))))];
       select := ["id"; "title"; "content"; "category"];
       top := 5;
       query_type := None;
       semantic_configuration_name := None |} in
  embeddings_create svc (trace w) search_query model = Ok response ->
  data response = first :: others ->
  search_client_search svc (trace w1) request = Ok rows ->
  Forall (fun row => Forall (fun field => is_Some (row !! field)) flow_keys) rows ->
  exists outs,
    PromptFlows.vector_search svc model search_query w = (Ok outs, log (SearchCall request) w1)
    /\ Forall2 scored rows outs.
Proof.
  intros w1 request Hanswer Hdata Hsearch Hrows.
  destruct (map_format_result_run rows (log (SearchCall request) w1) Hrows)
    as (outs & Hrun & Houts).
  exists outs. split; [|exact Houts].
  unfold PromptFlows.vector_search, bind at 1, call at 1. rewrite Hanswer, Hdata.
  unfold bind at 1, ret at 1. unfold bind, call. fold w1.
  change (PromptFlows.flow_request search_query (embedding first)) with request.
  rewrite Hsearch. exact Hrun.
Qed.

Lemma format_result_missing (row : pydict) (w : World) :
  Exists (fun field => row !! field = None) flow_keys ->
  exists field,
    field ∈ flow_keys /\ row !! field = None
    /\ PromptFlows.format_result row w = (Raise (Exn "KeyError" ("'" +:+ field +:+ "'")), w).
Proof.
  intros Hmissing. unfold PromptFlows.format_result, bind, lift, dict_item.
  destruct (row !! "id") eqn:Hid;
    [|exists "id"; split; [set_solver|]; split; [exact Hid | reflexivity]].
  destruct (row !! "title") eqn:Htitle;
    [|exists "title"; split; [set_solver|]; split; [exact Htitle | reflexivity]].
  destruct (row !! "content") eqn:Hcontent;
    [|exists "content"; split; [set_solver|]; split; [exact Hcontent | reflexivity]].
  destruct (row !! "category") eqn:Hcategory;
    [|exists "category"; split; [set_solver|]; split; [exact Hcategory | reflexivity]].
  destruct (row !! "@search.score") eqn:Hscore;
    [|exists "@search.score"; split; [set_solver|]; split; [exact Hscore | reflexivity]].
  exfalso. unfold flow_keys in Hmissing.
  repeat (apply Exists_cons in Hmissing as [Hmissing | Hmissing]; [congruence|]).
  inversion Hmissing.
Qed.

(** X23.  A row that lacks one of the five keys makes the prompt flow raise
    [KeyError] on a key the row lacks, after both calls have been made; the
    rows before it are lost with it. *)
Theorem flow_vector_search_missing_key
    (search_query : string) (response : CreateEmbeddingResponse)
    (first : Embedding) (others : list Embedding)
    (good : list pydict) (bad : pydict) (rest : list pydict) (w : World) :
  let w1 := log (EmbeddingsCreate search_query model) w in
  let request := PromptFlows.flow_request search_query (embedding first) in
  embeddings_create svc (trace w) search_query model = Ok response ->
  data response = first :: others ->
  search_client_search svc (trace w1) request = Ok (good ++ bad :: rest) ->
  Forall (fun row => Forall (fun field => is_Some (row !! field)) flow_keys) good ->
  Exists (fun field => bad !! field = None) flow_keys ->
  exists field,
    field ∈ flow_keys /\ bad !! field = None
    /\ PromptFlows.vector_search svc model search_query w
       = (Raise (Exn "KeyError" ("'" +:+ field +:+ "'")), log (SearchCall request) w1).
Proof.
  intros w1 request Hanswer Hdata Hsearch Hgood Hbad.
  destruct (format_result_missing bad (log (SearchCall request) w1) Hbad)
    as (field & Hin & Hnone & Hraise).
  exists field. split; [exact Hin|]. split; [exact Hnone|].
  unfold PromptFlows.vector_search, bind at 1, call at 1. rewrite Hanswer, Hdata.
  unfold bind at 1, ret at 1. unfold bind at 1, call. fold w1. fold request.
  rewrite Hsearch.
  generalize (log (SearchCall request) w1) Hraise. clear -Hgood.
  intros w2 Hraise.
  induction Hgood as [|row good Hrow _ IH].
  - cbn [app map_m]. unfold bind. rewrite Hraise. reflexivity.
  - destruct (format_result_run row w2 Hrow) as (out & Hout & _).
    cbn [app map_m]. unfold bind at 1. rewrite Hout.
    unfold bind at 1. rewrite IH. reflexivity.
Qed.

End FlowFacts.

Lemma flow_embedding_failure_propagates_witness :
  PromptFlows.vector_search throttled_provider "text-embedding-ada-002" "cloud" empty_world
  = (Raise (Exn "RateLimitError" "quota exceeded"),
     log (EmbeddingsCreate "cloud" "text-embedding-ada-002") empty_world).
Proof.
  apply flow_embedding_failure_propagates. left. reflexivity.
Defined.

Lemma catalog_row_keys : Forall (fun field => is_Some (catalog_row !! field)) flow_keys.
Proof. repeat constructor; eexists; reflexivity. Defined.

Lemma flow_vector_search_rows_witness :
  exists outs,
    PromptFlows.vector_search catalog "text-embedding-ada-002" "cloud" empty_world
    = (Ok outs,
       log (SearchCall
              {| search_text := PyStr "cloud";
                 vector_queries :=
                   [QueryDict (<["vector" := PyList [1%float; 2%float; 3%float]]>
                              (<["k" := PyInt 3]>
                              (<["fields" := PyStr "vectorEmbedding"]> (∅ : pydict))))];
                 select := ["id"; "title"; "content"; "category"];
                 top := 5;
                 query_type := None;
                 semantic_configuration_name := None |})
         (log (EmbeddingsCreate "cloud" "text-embedding-ada-002") empty_world))
    /\ Forall2 scored [catalog_row] outs.
Proof.
  apply (flow_vector_search_rows catalog "text-embedding-ada-002" "cloud"
           {| data := [ {| embedding := [1%float; 2%float; 3%float] |} ] |}
           {| embedding := [1%float; 2%float; 3%float] |} [] [catalog_row] empty_world).
  - reflexivity.
  - reflexivity.
  - reflexivity.
  - constructor; [exact catalog_row_keys | constructor].
Defined.

Lemma flow_vector_search_missing_key_witness :
  exists field,
    field ∈ flow_keys /\ unscored_row !! field = None
    /\ PromptFlows.vector_search unscored_catalog "text-embedding-ada-002" "cloud" empty_world
       = (Raise (Exn "KeyError" ("'" +:+ field +:+ "'")),
          log (SearchCall (PromptFlows.flow_request "cloud" [1%float; 2%float; 3%float]))
            (log (EmbeddingsCreate "cloud" "text-embedding-ada-002") empty_world)).
Proof.
  apply (flow_vector_search_missing_key unscored_catalog "text-embedding-ada-002" "cloud"
           {| data := [ {| embedding := [1%float; 2%float; 3%float] |} ] |}
           {| embedding := [1%float; 2%float; 3%float] |} [] [] unscored_row [] empty_world).
  - reflexivity.
  - reflexivity.
  - reflexivity.
  - constructor.
  - unfold flow_keys. do 4 apply Exists_cons_tl. apply Exists_cons_hd. reflexivity.
Defined.

Lemma format_result_quotable (row out : pydict) (w w' : World) :
  PromptFlows.format_result row w = (Ok out, w') ->
  dom out = ({[ "id"; "title"; "content"; "category"; "score" ]} : gset string)
  /\ quotable out.
Proof.
  unfold PromptFlows.format_result, bind, lift, dict_item.
  destruct (row !! "id"); [|discriminate].
  destruct (row !! "title"); [|discriminate].
  destruct (row !! "content"); [|discriminate].
  destruct (row !! "category"); [|discriminate].
  destruct (row !! "@search.score"); [|discriminate].
  unfold ret. intros [= <- _]. split; [|split].
  - rewrite !dom_insert_L, dom_empty_L. set_solver.
  - eexists. repeat (rewrite lookup_insert_ne by discriminate). apply lookup_insert_eq.
  - eexists. repeat (rewrite lookup_insert_ne by discriminate). apply lookup_insert_eq.
Qed.

Lemma map_format_result_quotable (rows outs : list pydict) (w w' : World) :
  map_m PromptFlows.format_result rows w = (Ok outs, w') ->
  Forall (fun out =>
            dom out = ({[ "id"; "title"; "content"; "category"; "score" ]} : gset string)
            /\ quotable out) outs.
Proof.
  revert outs w. induction rows as [|row rows IH]; intros outs w.
  - cbn. intros [= <- _]. constructor.
  - cbn [map_m]. unfold bind at 1.
    destruct (PromptFlows.format_result row w) as [[out|e] w1] eqn:Hout; [|discriminate].
    unfold bind at 1.
    destruct (map_m PromptFlows.format_result rows w1) as [[outs'|e] w2] eqn:Hrest;
      [|discriminate].
    unfold ret. intros [= <- <-].
    constructor; [exact (format_result_quotable _ _ _ _ Hout) | exact (IH _ _ Hrest)].
Qed.

(** X24.  Whatever the index answered, every document the prompt flow's
    [vector_search] returns has exactly the keys [id], [title], [content],
    [category] and [score]; in particular it has the title and the content
    that [generate_response] quotes. *)
Theorem flow_rows_are_quotable
    (svc : Services) (model search_query : string) (outs : list pydict) (w w' : World) :
  PromptFlows.vector_search svc model search_query w = (Ok outs, w') ->
  Forall (fun out =>
            dom out = ({[ "id"; "title"; "content"; "category"; "score" ]} : gset string)
            /\ quotable out) outs.
Proof.
  unfold PromptFlows.vector_search, bind at 1, call at 1.
  destruct (embeddings_create _ _ _ _) as [response|e]; [|discriminate].
  destruct (data response) as [|first others]; [discriminate|].
  unfold bind at 1, ret at 1. unfold bind at 1, call.
  destruct (search_client_search _ _ _) as [rows|e]; [|discriminate].
  apply map_format_result_quotable.
Qed.

Lemma flow_rows_are_quotable_witness :
  Forall (fun out =>
            dom out = ({[ "id"; "title"; "content"; "category"; "score" ]} : gset string)
            /\ quotable out)
    [<["score" := PyInt 1]> (<["category" := PyStr "azure"]>
       (<["content" := PyStr "Elastic capacity."]>
          (<["title" := PyStr "Cloud"]> (<["id" := PyStr "7"]> (∅ : pydict)))))].
Proof.
  apply (flow_rows_are_quotable catalog "text-embedding-ada-002" "cloud" _ empty_world
           (log (SearchCall (PromptFlows.flow_request "cloud" [1%float; 2%float; 3%float]))
              (log (EmbeddingsCreate "cloud" "text-embedding-ada-002") empty_world))).
  reflexivity.
Defined.

(** ** The prompt flow: the response *)

Lemma string_app_assoc (a b c : string) : (a +:+ b) +:+ c = a +:+ (b +:+ c).
Proof.
  induction a as [|x a IH]; [reflexivity|].
  change (String x ((a +:+ b) +:+ c) = String x (a +:+ (b +:+ c))).
  rewrite IH. reflexivity.
Qed.

Section ResponseFacts.
Variable gpt_model_deployment : string.
Variable chat_completions_create : list Event -> ChatRequest -> res ChatCompletion.
Variable format_float : float -> string.

Lemma add_documents_run (retrieved_documents : list pydict) (i : nat) (system_message : string) :
  Forall quotable retrieved_documents ->
  exists documents_text,
    PromptFlows.add_documents format_float i retrieved_documents system_message
    = Ok (system_message +:+ documents_text).
Proof.
  intros Hdocs. revert i system_message.
  induction Hdocs as [|doc docs [[title Htitle] [content Hcontent]] _ IH];
    intros i system_message.
  - exists "". cbn [PromptFlows.add_documents]. rewrite string_app_nil_r. reflexivity.
  - cbn [PromptFlows.add_documents]. unfold PromptFlows.document_lines, dict_item.
    rewrite Htitle, Hcontent.
    destruct (IH (S i) (system_message +:+
                ("Document " +:+ pretty i +:+ ": " +:+ PromptFlows.py_format format_float title
                   +:+ LF +:+ "Content: " +:+ PromptFlows.py_format format_float content
                   +:+ LF +:+ LF))) as [text Htext].
    rewrite Htext. eexists. rewrite string_app_assoc. reflexivity.
Qed.

(** X25.  On documents that have a title and a content, [generate_response]
    asks the model once, with temperature 0.5 and at most 800 tokens, that
    call being its only event.  The
    messages are the system message, which opens with the instructions and
    closes with the citation rule, then the chat history as it came, in
    order, then the query as a user message.  The answer is the content of
    the first choice; an exception of the model, or [IndexError] on an
    answer without choices, leaves the function. *)
Theorem generate_response_messages
    (user_query : pyval) (retrieved_documents chat_history : list pydict) (w : World) :
  Forall quotable retrieved_documents ->
  exists documents_text,
    let request :=
      {| chat_model := gpt_model_deployment;
         messages :=
           PromptFlows.role_message "system"
             (PyStr (PromptFlows.system_preamble +:+ documents_text
                       +:+ PromptFlows.citation_instructions))
             :: chat_history ++ [PromptFlows.role_message "user" user_query];
         temperature := 0.5%float;
         max_tokens := 800 |} in
    let result :=
      PromptFlows.generate_response gpt_model_deployment chat_completions_create format_float
        user_query retrieved_documents chat_history w in
    let asked := log (ChatCompletionsCreate request) w in
    (forall e, chat_completions_create (trace w) request = Raise e -> result = (Raise e, asked))
    /\ (forall response first others,
          chat_completions_create (trace w) request = Ok response ->
          choices response = first :: others ->
          result = (Ok (message_content first), asked))
    /\ (forall response,
          chat_completions_create (trace w) request = Ok response ->
          choices response = [] ->
          result = (Raise (Exn "IndexError" "list index out of range"), asked)).
Proof.
  intros Hdocs.
  destruct (add_documents_run retrieved_documents 1 PromptFlows.system_preamble Hdocs)
    as [text Htext].
  exists text.
  set (request := {| chat_model := gpt_model_deployment;
                     messages := PromptFlows.role_message "system"
                                   (PyStr (PromptFlows.system_preamble +:+ text
                                             +:+ PromptFlows.citation_instructions))
                                   :: chat_history
                                   ++ [PromptFlows.role_message "user" user_query];
                     temperature := 0.5%float;
                     max_tokens := 800 |}).
  cbn zeta.
  assert (PromptFlows.generate_response gpt_model_deployment chat_completions_create
            format_float user_query retrieved_documents chat_history w
          = bind (call (ChatCompletionsCreate request)
                    (fun history => chat_completions_create history request))
              (fun response =>
                 match choices response with
                 | first :: _ => ret (message_content first)
                 | [] => raise (Exn "IndexError" "list index out of range")
                 end) w) as ->.
  { unfold PromptFlows.generate_response, bind at 1, lift.
    rewrite Htext. cbv beta iota zeta. rewrite string_app_assoc. reflexivity. }
  unfold bind, call.
  split; [|split].
  - intros e ->. reflexivity.
  - intros response first others -> ->. reflexivity.
  - intros response -> ->. reflexivity.
Qed.

(** X26.  A retrieved document without [title], or with a title and
    without [content], makes [generate_response] raise [KeyError] on that
    key, whatever the model would have answered: the model is not asked. *)
Theorem generate_response_missing_key
    (user_query : pyval) (good : list pydict) (bad : pydict) (rest chat_history : list pydict)
    (field : string) (w : World) :
  Forall quotable good ->
  (field = "title" /\ bad !! "title" = None)
  \/ (field = "content" /\ is_Some (bad !! "title") /\ bad !! "content" = None) ->
  PromptFlows.generate_response gpt_model_deployment chat_completions_create format_float
    user_query (good ++ bad :: rest) chat_history w
  = (Raise (Exn "KeyError" ("'" +:+ field +:+ "'")), w).
Proof.
  intros Hgood Hbad.
  assert (forall i system_message,
            PromptFlows.add_documents format_float i (good ++ bad :: rest) system_message
            = Raise (Exn "KeyError" ("'" +:+ field +:+ "'"))) as Hraise.
  { induction Hgood as [|doc good [[title Htitle] [content Hcontent]] _ IH];
      intros i system_message.
    - cbn [app PromptFlows.add_documents]. unfold PromptFlows.document_lines, dict_item.
      destruct Hbad as [[-> Hnone] | (-> & [title Htitle] & Hnone)].
      + rewrite Hnone. reflexivity.
      + rewrite Htitle, Hnone. reflexivity.
    - cbn [app PromptFlows.add_documents]. unfold PromptFlows.document_lines, dict_item.
      rewrite Htitle, Hcontent. apply IH. }
  unfold PromptFlows.generate_response, bind, lift. rewrite Hraise. reflexivity.
Qed.

End ResponseFacts.

Lemma generate_response_messages_witness :
  exists request,
    PromptFlows.generate_response "gpt-4" canned_chat (fun _ => "0.0")
      (PyStr "what is cloud?") [catalog_row] [chat_message "user" "hello"] empty_world
    = (Ok (PyStr "See [Document 1]."), log (ChatCompletionsCreate request) empty_world).
Proof.
  destruct (generate_response_messages "gpt-4" canned_chat (fun _ => "0.0")
              (PyStr "what is cloud?") [catalog_row] [chat_message "user" "hello"] empty_world)
    as (text & _ & Hanswer & _).
  - constructor; [|constructor]. split; eexists; reflexivity.
  - eexists.
    apply (Hanswer {| choices := [ {| message_content := PyStr "See [Document 1]." |} ] |}
             {| message_content := PyStr "See [Document 1]." |} []); reflexivity.
Defined.

Lemma generate_response_missing_key_witness :
  PromptFlows.generate_response "gpt-4" canned_chat (fun _ => "0.0")
    (PyStr "what is cloud?") ([catalog_row] ++ sample_document :: []) [] empty_world
  = (Raise (Exn "KeyError" ("'" +:+ "content" +:+ "'")), empty_world).
Proof.
  apply (generate_response_missing_key "gpt-4" canned_chat (fun _ => "0.0")
           (PyStr "what is cloud?") [catalog_row] sample_document [] [] "content" empty_world).
  - constructor; [|constructor]. split; eexists; reflexivity.
  - right. split; [reflexivity|]. split; [eexists; reflexivity | reflexivity].
Defined.
